(** * Blogicum: visibility, ownership and pagination rules of the blog views

    A shallow embedding of [blogicum/blog/managers.py], [blogicum/blog/views.py]
    and [blogicum/core/views.py].  The database is an explicit state (one list
    of rows per table), a view is a function from the database and the request
    to the new database and either a response or a raised exception. *)

From Stdlib Require Import List ZArith String Bool Lia Arith Sorted Permutation.
Import ListNotations.

Set Implicit Arguments.

Open Scope string_scope.
Open Scope list_scope.
Open Scope nat_scope.

(** ** Data layer *)

(** Modelled from the spec: [blog/models.py] is not among the sources
    embedded here.  The rows
    carry the fields of section 3 of the specification (Post, Category,
    Comment, and the framework's user), under the names the views and the
    managers use for them ([pub_date], [is_published], [slug], [author],
    [category], [post]).  References are primary keys. *)
Record User := {
  user_pk : nat;
  username : string;
  first_name : string;
  last_name : string;
  email : string }.

Record Category := {
  category_pk : nat;
  slug : string;
  category_title : string;
  category_is_published : bool }.

Record Post := {
  post_pk : nat;
  post_author : nat;
  post_category : nat;
  post_location : option nat;
  post_title : string;
  post_text : string;
  pub_date : Z;
  is_published : bool }.

Record Comment := {
  comment_pk : nat;
  comment_author : nat;
  comment_post : nat;
  comment_text : string;
  created_at : Z }.

(** The tables, and for the two tables the views insert into the sequence
    of the auto-incremented key: the largest key handed out so far. *)
Record Db := {
  users : list User;
  categories : list Category;
  posts : list Post;
  comments : list Comment;
  post_sequence : nat;
  comment_sequence : nat }.

(** Modelled from the spec: the [Meta.ordering] of the [Post] model, which
    [blog/models.py] declares.  Section 4.1 lets the post
    collection come "ordered by descending publish timestamp"; a model
    without [Meta.ordering] hands the rows out as the table stores them. *)
Inductive Ordering := by_pub_date_desc | by_pub_date_asc.

(** ** Exceptions and responses *)

Inductive Exception :=
| Http404
| MultipleObjectsReturned
| TypeError
| ZeroDivisionError
| PageNotAnInteger
| EmptyPage.

Inductive Returned (A : Type) :=
| Return (a : A)
| Raise (e : Exception).
Arguments Return {A} a.
Arguments Raise {A} e.

Definition bind {A B} (r : Returned A) (k : A -> Returned B) : Returned B :=
  match r with
  | Return a => k a
  | Raise e => Raise e
  end.

Notation "'let!' x ':=' r 'in' k" := (bind r (fun x => k))
  (at level 10, x name, r at level 100, k at level 200).

(** [InvalidPage] is the base class of both pagination exceptions. *)
Definition is_InvalidPage (e : Exception) : bool :=
  match e with
  | PageNotAnInteger | EmptyPage => true
  | _ => false
  end.

(** ** The ORM operations the views use *)

(** [queryset.get(...)] on the rows that satisfy the lookup. *)
Definition get {A} (matching : list A) : Returned (option A) :=
  match matching with
  | [] => Return None
  | [a] => Return (Some a)
  | _ :: _ :: _ => Raise MultipleObjectsReturned
  end.

(** [get_object_or_404(queryset, **lookup)]: [DoesNotExist] becomes
    [Http404], any other exception passes through. *)
Definition get_object_or_404 {A} (queryset : list A) (lookup : A -> bool)
    : Returned A :=
  let! found := get (filter lookup queryset) in
  match found with
  | Some a => Return a
  | None => Raise Http404
  end.

(** [ORDER BY pub_date]: insertion into an ordered list keeps rows with
    equal keys in their former order. *)
Definition precedes (o : Ordering) (p q : Post) : bool :=
  match o with
  | by_pub_date_desc => (pub_date q <=? pub_date p)%Z
  | by_pub_date_asc => (pub_date p <=? pub_date q)%Z
  end.

Fixpoint insert_ordered (o : Ordering) (p : Post) (l : list Post) : list Post :=
  match l with
  | [] => [p]
  | q :: l' =>
      if precedes o p q then p :: q :: l' else q :: insert_ordered o p l'
  end.

Definition order_by (o : Ordering) (l : list Post) : list Post :=
  fold_right (insert_ordered o) [] l.

(** The join of a post with its category row, for [category__is_published]:
    a post whose category row is missing matches no such lookup. *)
Definition category_of (db : Db) (p : Post) : option Category :=
  find (fun c => category_pk c =? post_category p) (categories db).

Definition category__is_published (db : Db) (p : Post) : bool :=
  match category_of db p with
  | Some c => category_is_published c
  | None => false
  end.

(** ** managers.py *)

Module PostManager.

(** [models.Manager.get_queryset]: every row of the table, in the model's
    [Meta.ordering] when it has one. *)
Definition get_queryset (Meta_ordering : option Ordering) (db : Db)
    : list Post :=
  match Meta_ordering with
  | Some o => order_by o (posts db)
  | None => posts db
  end.

End PostManager.

Module PublishedPostManager.

Definition get_queryset (Meta_ordering : option Ordering) (db : Db)
    (now : Z) : list Post :=
  filter
    (fun p => (pub_date p <=? now)%Z
              && is_published p
              && category__is_published db p)
    (PostManager.get_queryset Meta_ordering db).

End PublishedPostManager.

(** ** django.core.paginator, as the views call it

    [Paginator(object_list, per_page)] with the defaults [orphans = 0] and
    [allow_empty_first_page = True]. *)

(** [request.GET.get('page')] as [int(...)] treats it: no such key ([None],
    a [TypeError]), a text that [int] rejects (a [ValueError]), or a text
    that [int] accepts, with its value. *)
Inductive PageParam :=
| page_absent
| page_text (s : string)
| page_int (n : Z).

Record Paginator (A : Type) := {
  object_list : list A;
  per_page : nat }.

Record Page (A : Type) := {
  page_object_list : list A;
  number : Z;
  paginator : Paginator A }.

Section Pagination.

Variable A : Type.

Definition orphans : Z := 0.
Definition allow_empty_first_page : bool := true.

Definition count (pg : Paginator A) : Z :=
  Z.of_nat (List.length (object_list pg)).

(** [ceil(hits / per_page)] for [hits >= 1]. *)
Definition num_pages (pg : Paginator A) : Returned Z :=
  if (count pg =? 0)%Z && negb allow_empty_first_page then Return 0%Z
  else
    let hits := Z.max 1 (count pg - orphans) in
    match per_page pg with
    | O => Raise ZeroDivisionError
    | S _ =>
        let k := Z.of_nat (per_page pg) in
        Return ((hits + k - 1) / k)%Z
    end.

Definition validate_number (pg : Paginator A) (number : PageParam)
    : Returned Z :=
  match number with
  | page_absent | page_text _ => Raise PageNotAnInteger
  | page_int n =>
      if (n <? 1)%Z then Raise EmptyPage
      else
        let! last := num_pages pg in
        if (last <? n)%Z then
          if (n =? 1)%Z && allow_empty_first_page then Return n
          else Raise EmptyPage
        else Return n
  end.

(** [object_list[bottom:top]] for [0 <= bottom]. *)
Definition slice (l : list A) (bottom top : Z) : list A :=
  firstn (Z.to_nat (top - bottom)) (skipn (Z.to_nat bottom) l).

Definition page (pg : Paginator A) (number : PageParam)
    : Returned (Page A) :=
  let! n := validate_number pg number in
  let bottom := ((n - 1) * Z.of_nat (per_page pg))%Z in
  let top := (bottom + Z.of_nat (per_page pg))%Z in
  let top := if (count pg <=? top + orphans)%Z then count pg else top in
  Return {| page_object_list := slice (object_list pg) bottom top;
            number := n;
            paginator := pg |}.

Definition get_page (pg : Paginator A) (number : PageParam)
    : Returned (Page A) :=
  let! n :=
    match validate_number pg number with
    | Raise PageNotAnInteger => Return 1%Z
    | Raise EmptyPage => num_pages pg
    | validated => validated
    end in
  page pg (page_int n).

Definition has_next (p : Page A) : Returned bool :=
  let! last := num_pages (paginator p) in
  Return (number p <? last)%Z.

Definition has_previous (p : Page A) : bool := (1 <? number p)%Z.

Definition has_other_pages (p : Page A) : Returned bool :=
  let! next := has_next p in
  Return (has_previous p || next).

End Pagination.

(** ** Requests, responses and forms *)

Inductive Method := GET | HEAD | POST | PUT | PATCH | DELETE | OPTIONS | TRACE.

Definition QueryDict := list (string * string).

(** [user = None] is the framework's [AnonymousUser]. *)
Record HttpRequest := {
  user : option User;
  method : Method;
  GET_page : PageParam;
  POST_data : QueryDict;
  csrf_token_valid : bool }.

Inductive UrlArg := int_arg (n : nat) | str_arg (s : string).

(** [reverse(viewname, args)], and [settings.LOGIN_URL] where the login
    requirement sends an anonymous visitor. *)
Inductive Url :=
| reverse (viewname : string) (args : list UrlArg)
| LOGIN_URL.

(** A model form: the submitted data when it is bound, the row it edits
    when it has one. *)
Record Form (I : Type) := {
  data : option QueryDict;
  instance : option I }.

Inductive Value :=
| a_bool (b : bool)
| a_user (u : User)
| a_category (c : Category)
| a_post (p : Post)
| a_comment (c : Comment)
| some_posts (l : list Post)
| some_comments (l : list Comment)
| a_paginator (pg : Paginator Post)
| a_page (pg : Page Post)
| a_post_form (f : Form Post)
| a_comment_form (f : Form Comment)
| a_profile_form (f : Form User).

Definition Context := list (string * Value).

(** [context[key] = value] on a dict. *)
Fixpoint set_item (key : string) (value : Value) (context : Context)
    : Context :=
  match context with
  | [] => [(key, value)]
  | (k, v) :: rest =>
      if (k =? key)%string then (k, value) :: rest
      else (k, v) :: set_item key value rest
  end.

Inductive HttpResponse :=
| render (template_name : string) (context : Context) (status : nat)
| redirect (to : Url)
| HttpResponseNotAllowed
| HttpResponseOptions
| HttpResponseServerError.

Definition HTTPStatus_OK : nat := 200.
Definition HTTPStatus_FORBIDDEN : nat := 403.
Definition HTTPStatus_NOT_FOUND : nat := 404.

(** What a view hands back: the database after it ran, and its response or
    the exception it raised. *)
Definition Outcome : Type := Db * Returned HttpResponse.

Definition fetch {A} (db : Db) (r : Returned A) (k : A -> Outcome) : Outcome :=
  match r with
  | Return a => k a
  | Raise e => (db, Raise e)
  end.

Notation "'let?' x ':=' r 'from' db 'in' k" := (fetch db r (fun x => k))
  (at level 10, x name, r at level 100, db at level 9, k at level 200).

(** Modelled from the spec: [blog/forms.py] and the project settings are
    not among the sources embedded here.  A form class is its validation:
    from the database, the
    form's instance and the submitted data, the instance carrying the
    cleaned fields when the data is valid ("Invalid form submission",
    section 7).  [Post_Meta_ordering] is the default ordering of the post
    model and [BLOG_PAGINATE_BY] the page size of the home listing. *)
Record Project := {
  Post_Meta_ordering : option Ordering;
  BLOG_PAGINATE_BY : nat;
  PostForm : Db -> option Post -> QueryDict -> option Post;
  CommentForm : Db -> option Comment -> QueryDict -> option Comment;
  ProfileForm : Db -> option User -> QueryDict -> option User }.

(** The validation that [form.is_valid()] runs: the instance with the
    cleaned fields, [None] for an unbound or an invalid form. *)
Definition full_clean {I} (form_class : option I -> QueryDict -> option I)
    (form : Form I) : option I :=
  match data form with
  | Some d => form_class (instance form) d
  | None => None
  end.

Definition is_valid {I} (form_class : option I -> QueryDict -> option I)
    (form : Form I) : bool :=
  match full_clean form_class form with
  | Some _ => true
  | None => false
  end.

(** [request.POST or None]: an empty [QueryDict] is falsy. *)
Definition POST_or_None (request : HttpRequest) : option QueryDict :=
  match POST_data request with
  | [] => None
  | d => Some d
  end.

(** ** Writes to the database *)

(** The key the database gives a new row of a table with an
    auto-incremented key: one more than the largest key the table has ever
    held, which the table's sequence remembers when that row is gone. *)
Definition fresh_pk (sequence : nat) (pks : list nat) : nat :=
  S (Nat.max sequence (fold_right Nat.max 0 pks)).

Definition replace_row {A} (pk : A -> nat) (row : A) (table : list A)
    : list A :=
  map (fun r => if pk r =? pk row then row else r) table.

Definition delete_row {A} (pk : A -> nat) (key : nat) (table : list A)
    : list A :=
  filter (fun r => negb (pk r =? key)) table.

Definition with_user_pk (k : nat) (u : User) : User :=
  {| user_pk := k; username := username u; first_name := first_name u;
     last_name := last_name u; email := email u |}.

Definition with_post_key (k author : nat) (p : Post) : Post :=
  {| post_pk := k; post_author := author; post_category := post_category p;
     post_location := post_location p; post_title := post_title p;
     post_text := post_text p; pub_date := pub_date p;
     is_published := is_published p |}.

Definition with_comment_key (k author post : nat) (created : Z) (c : Comment)
    : Comment :=
  {| comment_pk := k; comment_author := author; comment_post := post;
     comment_text := comment_text c; created_at := created |}.

Definition save_user (db : Db) (u : User) : Db :=
  {| users := replace_row user_pk u (users db);
     categories := categories db; posts := posts db;
     comments := comments db;
     post_sequence := post_sequence db;
     comment_sequence := comment_sequence db |}.

Definition insert_post (db : Db) (p : Post) : Db :=
  {| users := users db; categories := categories db;
     posts := posts db ++ [p]; comments := comments db;
     post_sequence := Nat.max (post_sequence db) (post_pk p);
     comment_sequence := comment_sequence db |}.

Definition save_post (db : Db) (p : Post) : Db :=
  {| users := users db; categories := categories db;
     posts := replace_row post_pk p (posts db); comments := comments db;
     post_sequence := post_sequence db;
     comment_sequence := comment_sequence db |}.

(** The comments of a deleted post go with it. *)
Definition delete_post (db : Db) (pk : nat) : Db :=
  {| users := users db; categories := categories db;
     posts := delete_row post_pk pk (posts db);
     comments := filter (fun c => negb (comment_post c =? pk)) (comments db);
     post_sequence := post_sequence db;
     comment_sequence := comment_sequence db |}.

Definition insert_comment (db : Db) (c : Comment) : Db :=
  {| users := users db; categories := categories db; posts := posts db;
     comments := comments db ++ [c];
     post_sequence := post_sequence db;
     comment_sequence := Nat.max (comment_sequence db) (comment_pk c) |}.

Definition save_comment (db : Db) (c : Comment) : Db :=
  {| users := users db; categories := categories db; posts := posts db;
     comments := replace_row comment_pk c (comments db);
     post_sequence := post_sequence db;
     comment_sequence := comment_sequence db |}.

Definition delete_comment_row (db : Db) (pk : nat) : Db :=
  {| users := users db; categories := categories db; posts := posts db;
     comments := delete_row comment_pk pk (comments db);
     post_sequence := post_sequence db;
     comment_sequence := comment_sequence db |}.

(** ** blog/views.py *)

(** [record.author == request.user] for an authenticated requester: two
    rows of a table are equal when their primary keys are. *)
Definition is_author (author : nat) (u : User) : bool := author =? user_pk u.

(** [@login_required] and [LoginRequiredMixin]: an anonymous visitor is
    sent to the login page before the view runs. *)
Definition login_required (db : Db) (request : HttpRequest)
    (view : User -> Outcome) : Outcome :=
  match user request with
  | Some u => view u
  | None => (db, Return (redirect LOGIN_URL))
  end.

Definition paginate_objects {A} (request : HttpRequest) (objects_list : list A)
    (per_page : nat) : Returned (Page A) :=
  let paginator := {| object_list := objects_list; per_page := per_page |} in
  let page_number := GET_page request in
  get_page paginator page_number.

Definition default_per_page : nat := 10.

(** [request.user.username]; the anonymous user's is the empty string. *)
Definition request_username (request : HttpRequest) : string :=
  match user request with
  | Some u => username u
  | None => EmptyString
  end.

Definition edit_profile (project : Project) (db : Db) (request : HttpRequest)
    (name : string) : Outcome :=
  let? user :=
    get_object_or_404 (users db) (fun u => (username u =? name)%string)
    from db in
  if negb (username user =? request_username request)%string
  then (db, Return (redirect (reverse "login" [])))
  else
    let form := {| data := POST_or_None request; instance := Some user |} in
    let context form := [("form", a_profile_form form)] in
    match full_clean (ProfileForm project db) form with
    | Some cleaned =>
        (* the context holds the form object itself, and the validation
           has written the cleaned fields into [form.instance] *)
        let saved := with_user_pk (user_pk user) cleaned in
        let form := {| data := data form; instance := Some saved |} in
        (save_user db saved,
         Return (render "blog/user.html" (context form) HTTPStatus_OK))
    | None =>
        (db, Return (render "blog/user.html" (context form) HTTPStatus_OK))
    end.

Definition info_profile (project : Project) (db : Db) (request : HttpRequest)
    (name : string) : Outcome :=
  let templates := "blog/profile.html" in
  let? user :=
    get_object_or_404 (users db) (fun u => (username u =? name)%string)
    from db in
  let profile_post :=
    filter (fun p => post_author p =? user_pk user)
           (PostManager.get_queryset (Post_Meta_ordering project) db) in
  let? page_obj := paginate_objects request profile_post default_per_page
    from db in
  let context := [("profile", a_user user); ("page_obj", a_page page_obj)] in
  (db, Return (render templates context HTTPStatus_OK)).

Module PostListView.

Definition template_name : string := "blog/index.html".

(** Read by [ListView.get_queryset] only, which this view replaces. *)
Definition ordering : Ordering := by_pub_date_desc.

Definition paginate_by (project : Project) : nat := BLOG_PAGINATE_BY project.

Definition get_queryset (project : Project) (db : Db) (now : Z)
    : list Post :=
  PublishedPostManager.get_queryset (Post_Meta_ordering project) db now.

(** [MultipleObjectMixin.paginate_queryset]: the page asked for or a 404. *)
Definition paginate_queryset (request : HttpRequest) (queryset : list Post)
    (page_size : nat)
    : Returned (Paginator Post * Page Post * list Post * bool) :=
  let paginator := {| object_list := queryset; per_page := page_size |} in
  let page_or_1 :=
    match GET_page request with
    | page_absent => page_int 1
    | page_text EmptyString => page_int 1
    | given => given
    end in
  let! page_number :=
    match page_or_1 with
    | page_int n => Return n
    | page_text s =>
        if (s =? "last")%string then num_pages paginator else Raise Http404
    | page_absent => Raise TypeError
    end in
  match page paginator (page_int page_number) with
  | Return pg =>
      let! others := has_other_pages pg in
      Return (paginator, pg, page_object_list pg, others)
  | Raise e => if is_InvalidPage e then Raise Http404 else Raise e
  end.

(** [MultipleObjectMixin.get_context_data], the [super()] call. *)
Definition super_get_context_data (project : Project)
    (request : HttpRequest) (queryset : list Post) : Returned Context :=
  match paginate_by project with
  | O =>
      Return [("is_paginated", a_bool false);
              ("object_list", some_posts queryset);
              ("post_list", some_posts queryset)]
  | S _ =>
      let! paginated :=
        paginate_queryset request queryset (paginate_by project) in
      let '(paginator, pg, object_list, is_paginated) := paginated in
      Return [("paginator", a_paginator paginator);
              ("page_obj", a_page pg);
              ("is_paginated", a_bool is_paginated);
              ("object_list", some_posts object_list);
              ("post_list", some_posts object_list)]
  end.

Definition get_context_data (project : Project) (db : Db) (now : Z)
    (request : HttpRequest) : Returned Context :=
  let! context :=
    super_get_context_data project request (get_queryset project db now) in
  let paginator := {| object_list := get_queryset project db now;
                      per_page := paginate_by project |} in
  let page_number := GET_page request in
  let! page_obj := get_page paginator page_number in
  Return (set_item "page_obj" (a_page page_obj) context).

Definition dispatch (project : Project) (db : Db) (now : Z)
    (request : HttpRequest) : Outcome :=
  match method request with
  | GET | HEAD =>
      let? context := get_context_data project db now request from db in
      (db, Return (render template_name context HTTPStatus_OK))
  | OPTIONS => (db, Return HttpResponseOptions)
  | _ => (db, Return HttpResponseNotAllowed)
  end.

End PostListView.

Definition category_posts (project : Project) (db : Db) (now : Z)
    (request : HttpRequest) (category_slug : string) : Outcome :=
  let templates := "blog/category.html" in
  let? category :=
    get_object_or_404 (categories db)
      (fun c => category_is_published c && (slug c =? category_slug)%string)
    from db in
  let post_list :=
    filter (fun p => post_category p =? category_pk category)
      (PublishedPostManager.get_queryset (Post_Meta_ordering project) db now) in
  let? page_obj := paginate_objects request post_list default_per_page
    from db in
  let context :=
    [("category", a_category category); ("page_obj", a_page page_obj)] in
  (db, Return (render templates context HTTPStatus_OK)).

Module PostCreateView.

Definition template_name : string := "blog/create.html".

Definition get_success_url (user : User) : Url :=
  reverse "blog:profile" [str_arg (username user)].

(** [form.instance.author = self.request.user], then the [super()] call
    saves the new row. *)
Definition form_valid (db : Db) (user : User) (cleaned : Post) : Outcome :=
  let row :=
    with_post_key (fresh_pk (post_sequence db) (map post_pk (posts db)))
      (user_pk user) cleaned in
  (insert_post db row, Return (redirect (get_success_url user))).

Definition dispatch (project : Project) (db : Db) (request : HttpRequest)
    : Outcome :=
  login_required db request (fun user =>
    match method request with
    | GET | HEAD =>
        let form := {| data := None; instance := None |} in
        (db, Return (render template_name [("form", a_post_form form)]
                       HTTPStatus_OK))
    | POST | PUT =>
        let form := {| data := Some (POST_data request); instance := None |} in
        match full_clean (PostForm project db) form with
        | Some cleaned => form_valid db user cleaned
        | None =>
            (db, Return (render template_name [("form", a_post_form form)]
                           HTTPStatus_OK))
        end
    | OPTIONS => (db, Return HttpResponseOptions)
    | _ => (db, Return HttpResponseNotAllowed)
    end).

End PostCreateView.

(** [Post._default_manager], which the generic views and
    [get_object_or_404(Post, ...)] read: the views name the other manager
    ([manager='published'], [Post.published]) wherever they want the
    filtered one. *)
Definition Post_objects (project : Project) (db : Db) : list Post :=
  PostManager.get_queryset (Post_Meta_ordering project) db.

(** [SingleObjectMixin.get_object] of the generic views on [Post]. *)
Definition get_object (project : Project) (db : Db) (pk : nat)
    : Returned Post :=
  get_object_or_404 (Post_objects project db) (fun p => post_pk p =? pk).

Module DispatchMixin.

Definition dispatch (project : Project) (db : Db) (request : HttpRequest)
    (user : User) (pk : nat) (super_dispatch : Outcome) : Outcome :=
  let post_id := pk in
  let? object := get_object project db pk from db in
  if negb (is_author (post_author object) user)
  then (db, Return (redirect (reverse "blog:post_detail" [int_arg post_id])))
  else super_dispatch.

End DispatchMixin.

Module PostUpdateView.

Definition template_name : string := "blog/create.html".

Definition get_success_url (post_id : nat) : Url :=
  reverse "blog:post_detail" [int_arg post_id].

Definition update (project : Project) (db : Db) (request : HttpRequest)
    (pk : nat) : Outcome :=
  let? object := get_object project db pk from db in
  let context form :=
    [("object", a_post object); ("post", a_post object);
     ("form", a_post_form form)] in
  match method request with
  | GET | HEAD =>
      let form := {| data := None; instance := Some object |} in
      (db, Return (render template_name (context form) HTTPStatus_OK))
  | POST | PUT =>
      let form :=
        {| data := Some (POST_data request); instance := Some object |} in
      match full_clean (PostForm project db) form with
      | Some cleaned =>
          (save_post db
             (with_post_key (post_pk object) (post_author cleaned) cleaned),
           Return (redirect (get_success_url pk)))
      | None =>
          (db, Return (render template_name (context form) HTTPStatus_OK))
      end
  | OPTIONS => (db, Return HttpResponseOptions)
  | _ => (db, Return HttpResponseNotAllowed)
  end.

Definition dispatch (project : Project) (db : Db) (request : HttpRequest)
    (pk : nat) : Outcome :=
  login_required db request (fun user =>
    DispatchMixin.dispatch project db request user pk
      (update project db request pk)).

End PostUpdateView.

Module PostDeleteView.

Definition success_url : Url := reverse "blog:index" [].
Definition template_name : string := "blog/create.html".

Definition delete (project : Project) (db : Db) (request : HttpRequest)
    (pk : nat) : Outcome :=
  match method request with
  | GET | HEAD =>
      let? object := get_object project db pk from db in
      (db, Return (render template_name
                     [("object", a_post object); ("post", a_post object)]
                     HTTPStatus_OK))
  | POST | DELETE =>
      let? object := get_object project db pk from db in
      (delete_post db (post_pk object), Return (redirect success_url))
  | OPTIONS => (db, Return HttpResponseOptions)
  | _ => (db, Return HttpResponseNotAllowed)
  end.

Definition dispatch (project : Project) (db : Db) (request : HttpRequest)
    (pk : nat) : Outcome :=
  login_required db request (fun user =>
    DispatchMixin.dispatch project db request user pk
      (delete project db request pk)).

End PostDeleteView.

Module PostDetailView.

Definition template_name : string := "blog/detail.html".

(** [Q(is_published=True) | Q(author=self.request.user)]: the anonymous
    user is no row of the user table and the lookup on [author] rejects
    it with a [TypeError]. *)
Definition get_object (project : Project) (db : Db) (request : HttpRequest)
    (pk : nat) : Returned Post :=
  match user request with
  | Some requester =>
      let queryset :=
        filter (fun p => is_published p
                         || is_author (post_author p) requester)
               (Post_objects project db) in
      get_object_or_404 queryset (fun p => post_pk p =? pk)
  | None => Raise TypeError
  end.

Definition get_context_data (db : Db) (object : Post) : Context :=
  [("object", a_post object); ("post", a_post object);
   ("form", a_comment_form {| data := None; instance := None |});
   ("comments",
    some_comments
      (filter (fun c => comment_post c =? post_pk object) (comments db)))].

Definition dispatch (project : Project) (db : Db) (request : HttpRequest)
    (pk : nat) : Outcome :=
  match method request with
  | GET | HEAD =>
      let? object := get_object project db request pk from db in
      (db, Return (render template_name (get_context_data db object)
                     HTTPStatus_OK))
  | OPTIONS => (db, Return HttpResponseOptions)
  | _ => (db, Return HttpResponseNotAllowed)
  end.

End PostDetailView.

Definition add_comment (project : Project) (db : Db) (now : Z)
    (request : HttpRequest) (pk : nat) : Outcome :=
  login_required db request (fun user =>
    let? post :=
      get_object_or_404 (Post_objects project db) (fun p => post_pk p =? pk)
      from db in
    let form := {| data := POST_or_None request; instance := None |} in
    let db' :=
      match full_clean (CommentForm project db) form with
      | Some cleaned =>
          let comment :=
            with_comment_key
              (fresh_pk (comment_sequence db) (map comment_pk (comments db)))
              (user_pk user) (post_pk post) now cleaned in
          insert_comment db comment
      | None => db
      end in
    (db', Return (redirect (reverse "blog:post_detail" [int_arg pk])))).

Definition edit_comment (project : Project) (db : Db) (request : HttpRequest)
    (comment_id post_id : nat) : Outcome :=
  login_required db request (fun user =>
    let? instance :=
      get_object_or_404 (comments db)
        (fun c => (comment_pk c =? comment_id) && (comment_post c =? post_id))
      from db in
    let form := {| data := POST_or_None request; instance := Some instance |} in
    if negb (is_author (comment_author instance) user)
    then (db, Return (redirect (reverse "blog:post_detail" [int_arg post_id])))
    else
      let context :=
        [("form", a_comment_form form); ("comment", a_comment instance)] in
      match full_clean (CommentForm project db) form with
      | Some cleaned =>
          (save_comment db
             (with_comment_key (comment_pk instance) (comment_author cleaned)
                (comment_post cleaned) (created_at cleaned) cleaned),
           Return (redirect (reverse "blog:post_detail" [int_arg post_id])))
      | None =>
          (db, Return (render "blog/comment.html" context HTTPStatus_OK))
      end).

Definition is_POST (m : Method) : bool :=
  match m with POST => true | _ => false end.

Definition delete_comment (db : Db) (request : HttpRequest)
    (comment_id post_id : nat) : Outcome :=
  login_required db request (fun user =>
    let? delete_comment :=
      get_object_or_404 (comments db)
        (fun c => (comment_pk c =? comment_id) && (comment_post c =? post_id))
      from db in
    if negb (is_author (comment_author delete_comment) user)
    then (db, Return (redirect (reverse "blog:post_detail" [int_arg post_id])))
    else
      let context := [("comment", a_comment delete_comment)] in
      if is_POST (method request)
      then (delete_comment_row db (comment_pk delete_comment),
            Return (redirect (reverse "blog:post_detail" [int_arg post_id])))
      else (db, Return (render "blog/comment.html" context HTTPStatus_OK))).

(** ** core/views.py *)

Definition page_not_found (request : HttpRequest) (exception : Exception)
    : HttpResponse :=
  render "core/404.html" [] HTTPStatus_NOT_FOUND.

Definition csrf_failure (request : HttpRequest) (reason : string)
    : HttpResponse :=
  render "core/403csrf.html" [] HTTPStatus_FORBIDDEN.

(** ** The framework around the views *)

(** Modelled from the spec: [blogicum/urls.py], [blog/urls.py] and
    [settings.py] are not among the sources embedded here.  Section 6
    gives the routes and
    "Error responses: 404 page for not-found, 403 page for CSRF failure":
    the check of the CSRF token runs before the view on every method that
    is not a safe one, a failure is answered by [csrf_failure]; an
    [Http404] that leaves the view is answered by [page_not_found], any
    other exception by the server-error response. *)
Inductive Route :=
| route_index
| route_category_posts (category_slug : string)
| route_create_post
| route_post_detail (pk : nat)
| route_edit_post (pk : nat)
| route_delete_post (pk : nat)
| route_add_comment (pk : nat)
| route_edit_comment (post_id comment_id : nat)
| route_delete_comment (post_id comment_id : nat)
| route_profile (name : string)
| route_edit_profile (name : string).

Definition resolve (project : Project) (db : Db) (now : Z)
    (request : HttpRequest) (route : Route) : Outcome :=
  match route with
  | route_index => PostListView.dispatch project db now request
  | route_category_posts category_slug =>
      category_posts project db now request category_slug
  | route_create_post => PostCreateView.dispatch project db request
  | route_post_detail pk => PostDetailView.dispatch project db request pk
  | route_edit_post pk => PostUpdateView.dispatch project db request pk
  | route_delete_post pk => PostDeleteView.dispatch project db request pk
  | route_add_comment pk => add_comment project db now request pk
  | route_edit_comment post_id comment_id =>
      edit_comment project db request comment_id post_id
  | route_delete_comment post_id comment_id =>
      delete_comment db request comment_id post_id
  | route_profile name => info_profile project db request name
  | route_edit_profile name => edit_profile project db request name
  end.

Definition safe_method (m : Method) : bool :=
  match m with
  | GET | HEAD | OPTIONS | TRACE => true
  | _ => false
  end.

Definition fails_csrf (request : HttpRequest) : bool :=
  negb (safe_method (method request)) && negb (csrf_token_valid request).

Definition get_response (project : Project) (db : Db) (now : Z)
    (request : HttpRequest) (route : Route) : Db * HttpResponse :=
  if fails_csrf request then (db, csrf_failure request "")
  else
    match resolve project db now request route with
    | (db', Return response) => (db', response)
    | (db', Raise Http404) => (db', page_not_found request Http404)
    | (db', Raise _) => (db', HttpResponseServerError)
    end.

(** ** Integrity of the database *)

(** Primary keys are unique in every table, and so are user names and
    category slugs (their columns are declared unique). *)
Record integrity (db : Db) : Prop := {
  unique_user_pk : NoDup (map user_pk (users db));
  unique_username : NoDup (map username (users db));
  unique_category_pk : NoDup (map category_pk (categories db));
  unique_slug : NoDup (map slug (categories db));
  unique_post_pk : NoDup (map post_pk (posts db));
  unique_comment_pk : NoDup (map comment_pk (comments db)) }.

(** ** Properties named by the specification *)

(** Section 3: "a post is publicly visible iff published == true AND
    publish_timestamp <= now AND category.published == true". *)
Definition publicly_visible (db : Db) (now : Z) (p : Post) : Prop :=
  is_published p = true
  /\ (pub_date p <= now)%Z
  /\ exists c, category_of db p = Some c /\ category_is_published c = true.

Definition publicly_visibleb (db : Db) (now : Z) (p : Post) : bool :=
  is_published p && (pub_date p <=? now)%Z && category__is_published db p.

(** [a] stands before [b] in [l]. *)
Definition stands_before {A} (a b : A) (l : list A) : Prop :=
  exists l1 l2 l3, l = l1 ++ a :: l2 ++ b :: l3.

Definition descending : Post -> Post -> Prop :=
  fun p q => (pub_date q <= pub_date p)%Z.

(** The page number a numeric clamp to [1 .. last] would pick. *)
Definition clamp (last n : Z) : Z := Z.max 1 (Z.min n last).

(** [ceil(n / k)] on naturals. *)
Definition ceil_div (n k : nat) : nat := (n + k - 1) / k.

(** The number of the last page of [N] records in pages of [K]:
    [ceil(N / K)], and 1 when there is no record. *)
Definition last_page (N K : nat) : nat :=
  if N =? 0 then 1 else ceil_div N K.

(** The record a route names by key, slug or user name is in no row. *)
Definition targets_missing_record (db : Db) (route : Route) : bool :=
  match route with
  | route_index | route_create_post => false
  | route_category_posts category_slug =>
      negb (existsb (fun c => (slug c =? category_slug)%string) (categories db))
  | route_post_detail pk | route_edit_post pk | route_delete_post pk
  | route_add_comment pk =>
      negb (existsb (fun p => post_pk p =? pk) (posts db))
  | route_edit_comment post_id comment_id
  | route_delete_comment post_id comment_id =>
      negb (existsb (fun c => (comment_pk c =? comment_id)
                              && (comment_post c =? post_id)) (comments db))
  | route_profile name | route_edit_profile name =>
      negb (existsb (fun u => (username u =? name)%string) (users db))
  end.

(** The largest integer a key column of the database holds, [2^63 - 1]. *)
Definition max_key : Z := 9223372036854775807.

(** The integer keys a route carries are integers a key column can hold.
    The integer converter of the URL lets larger ones through as well; the
    database then refuses the lookup with an [OverflowError] before it
    looks at any row.  The lookups of this development stand for keys in
    the range of the column, and what is stated about a record that does
    not exist is stated for such keys. *)
Definition keys_in_range (route : Route) : bool :=
  match route with
  | route_post_detail pk | route_edit_post pk | route_delete_post pk
  | route_add_comment pk => (Z.of_nat pk <=? max_key)%Z
  | route_edit_comment post_id comment_id
  | route_delete_comment post_id comment_id =>
      (Z.of_nat post_id <=? max_key)%Z && (Z.of_nat comment_id <=? max_key)%Z
  | _ => true
  end.

Definition is_authenticated (request : HttpRequest) : bool :=
  match user request with Some _ => true | None => false end.

(** The request gets as far as the view's lookup of the record: it passes
    the CSRF check and the login requirement of the route, and the detail
    page is asked for by an authenticated user with GET or HEAD. *)
Definition reaches_lookup (request : HttpRequest) (route : Route) : bool :=
  negb (fails_csrf request)
  && match route with
     | route_index | route_create_post => true
     | route_category_posts _ | route_profile _ | route_edit_profile _ => true
     | route_post_detail _ =>
         is_authenticated request
         && match method request with GET | HEAD => true | _ => false end
     | route_edit_post _ | route_delete_post _ | route_add_comment _
     | route_edit_comment _ _ | route_delete_comment _ _ =>
         is_authenticated request
     end.

(** The page number that is served for a requested one: the first page
    when the parameter is absent or no integer, the requested page when it
    is one of [1 .. last], the last page for any other integer. *)
Definition served_number (last : nat) (number : PageParam) : nat :=
  match number with
  | page_absent | page_text _ => 1
  | page_int n =>
      if (1 <=? n)%Z && (n <=? Z.of_nat last)%Z then Z.to_nat n else last
  end.

(** ** A small blog *)

Module Sample.

Definition alice : User :=
  {| user_pk := 1; username := "alice"; first_name := "Alice";
     last_name := "A"; email := "alice@example.org" |}.

Definition bob : User :=
  {| user_pk := 2; username := "bob"; first_name := "Bob";
     last_name := "B"; email := "bob@example.org" |}.

Definition travel : Category :=
  {| category_pk := 1; slug := "travel"; category_title := "Travel";
     category_is_published := true |}.

Definition hidden : Category :=
  {| category_pk := 2; slug := "hidden"; category_title := "Hidden";
     category_is_published := false |}.

Definition post (pk author category : nat) (date : Z) (published : bool)
    : Post :=
  {| post_pk := pk; post_author := author; post_category := category;
     post_location := None; post_title := "title"; post_text := "text";
     pub_date := date; is_published := published |}.

Definition now : Z := 300.

(** Alice's posts: a visible one, one scheduled for later, one in the
    hidden category, a draft; then a visible post of Bob's. *)
Definition early : Post := post 1 1 1 100 true.
Definition scheduled : Post := post 2 1 1 500 true.
Definition in_hidden : Post := post 3 1 2 50 true.
Definition draft : Post := post 4 1 1 10 false.
Definition recent : Post := post 5 2 1 200 true.

Definition first_comment : Comment :=
  {| comment_pk := 1; comment_author := 1; comment_post := 1;
     comment_text := "hello"; created_at := 150 |}.

Definition db : Db :=
  {| users := [alice; bob];
     categories := [travel; hidden];
     posts := [early; scheduled; in_hidden; draft; recent];
     comments := [first_comment];
     post_sequence := 5;
     comment_sequence := 1 |}.

Fixpoint field (key : string) (d : QueryDict) : option string :=
  match d with
  | [] => None
  | (k, v) :: rest => if (k =? key)%string then Some v else field key rest
  end.

(** Forms with one required field each. *)
Definition required (key : string) (d : QueryDict) : option string :=
  match field key d with
  | Some EmptyString => None
  | found => found
  end.

Definition post_form (_ : Db) (instance : option Post) (d : QueryDict)
    : option Post :=
  match required "title" d with
  | Some t =>
      let old := match instance with Some p => p | None => post 0 0 1 0 true end in
      Some {| post_pk := post_pk old; post_author := post_author old;
              post_category := post_category old;
              post_location := post_location old; post_title := t;
              post_text := post_text old; pub_date := pub_date old;
              is_published := is_published old |}
  | None => None
  end.

Definition comment_form (_ : Db) (instance : option Comment) (d : QueryDict)
    : option Comment :=
  match required "text" d with
  | Some t =>
      let old := match instance with
                 | Some c => c
                 | None => {| comment_pk := 0; comment_author := 0;
                              comment_post := 0; comment_text := "";
                              created_at := 0 |}
                 end in
      Some {| comment_pk := comment_pk old;
              comment_author := comment_author old;
              comment_post := comment_post old; comment_text := t;
              created_at := created_at old |}
  | None => None
  end.

Definition profile_form (_ : Db) (instance : option User) (d : QueryDict)
    : option User :=
  match required "first_name" d, instance with
  | Some n, Some u =>
      Some {| user_pk := user_pk u; username := username u; first_name := n;
              last_name := last_name u; email := email u |}
  | _, _ => None
  end.

Definition project (Meta_ordering : option Ordering) : Project :=
  {| Post_Meta_ordering := Meta_ordering;
     BLOG_PAGINATE_BY := 10;
     PostForm := post_form;
     CommentForm := comment_form;
     ProfileForm := profile_form |}.

Definition request (who : option User) (m : Method) (d : QueryDict)
    (pg : PageParam) : HttpRequest :=
  {| user := who; method := m; GET_page := pg; POST_data := d;
     csrf_token_valid := true |}.

(** [n] visible posts of Bob's, with the keys and dates [1 .. n]. *)
Definition some_records (n : nat) : list Post :=
  map (fun i => post i 2 1 (Z.of_nat i) true) (seq 1 n).

End Sample.

(** ** The writes of a request *)

(** What a request on a route can do to the database: nothing, or the one
    write of the view behind the route, with what the view has checked
    before it writes. *)
Inductive Write (project : Project) (db : Db) (now : Z)
    (request : HttpRequest) : Route -> Db -> Prop :=
| write_nothing route : Write project db now request route db
| write_new_post V cleaned :
    user request = Some V ->
    method request = POST \/ method request = PUT ->
    Write project db now request route_create_post
      (insert_post db
         (with_post_key (fresh_pk (post_sequence db) (map post_pk (posts db)))
            (user_pk V) cleaned))
| write_post V pk object cleaned :
    user request = Some V ->
    get_object project db pk = Return object ->
    post_author object = user_pk V ->
    method request = POST \/ method request = PUT ->
    Write project db now request (route_edit_post pk)
      (save_post db
         (with_post_key (post_pk object) (post_author cleaned) cleaned))
| write_post_gone V pk object :
    user request = Some V ->
    get_object project db pk = Return object ->
    post_author object = user_pk V ->
    method request = POST \/ method request = DELETE ->
    Write project db now request (route_delete_post pk)
      (delete_post db (post_pk object))
| write_new_comment V pk post cleaned d :
    user request = Some V ->
    get_object project db pk = Return post ->
    POST_or_None request = Some d ->
    Write project db now request (route_add_comment pk)
      (insert_comment db
         (with_comment_key
              (fresh_pk (comment_sequence db) (map comment_pk (comments db)))
            (user_pk V) (post_pk post) now cleaned))
| write_comment V post_id comment_id instance cleaned d :
    user request = Some V ->
    get_object_or_404 (comments db)
      (fun c => (comment_pk c =? comment_id) && (comment_post c =? post_id))
    = Return instance ->
    comment_author instance = user_pk V ->
    POST_or_None request = Some d ->
    Write project db now request (route_edit_comment post_id comment_id)
      (save_comment db
         (with_comment_key (comment_pk instance) (comment_author cleaned)
            (comment_post cleaned) (created_at cleaned) cleaned))
| write_comment_gone V post_id comment_id c :
    user request = Some V ->
    get_object_or_404 (comments db)
      (fun c => (comment_pk c =? comment_id) && (comment_post c =? post_id))
    = Return c ->
    comment_author c = user_pk V ->
    method request = POST ->
    Write project db now request (route_delete_comment post_id comment_id)
      (delete_comment_row db (comment_pk c))
| write_user name u cleaned d :
    get_object_or_404 (users db) (fun u => (username u =? name)%string)
    = Return u ->
    username u = request_username request ->
    POST_or_None request = Some d ->
    Write project db now request (route_edit_profile name)
      (save_user db (with_user_pk (user_pk u) cleaned)).

(** The routes whose view stands behind [@login_required] or
    [LoginRequiredMixin]. *)
Definition requires_login (route : Route) : bool :=
  match route with
  | route_create_post | route_edit_post _ | route_delete_post _
  | route_add_comment _ | route_edit_comment _ _
  | route_delete_comment _ _ => true
  | _ => false
  end.

(** The same request, asking for page [n]. *)
Definition asking_for (request : HttpRequest) (n : nat) : HttpRequest :=
  {| user := user request; method := method request;
     GET_page := page_int (Z.of_nat n); POST_data := POST_data request;
     csrf_token_valid := csrf_token_valid request |}.

(** The records the pagination helper serves as page [n]. *)
Definition page_records {A} (request : HttpRequest) (records : list A)
    (per_page n : nat) : list A :=
  match paginate_objects (asking_for request n) records per_page with
  | Return pg => page_object_list pg
  | Raise _ => []
  end.

(** * Theorems *)

(** ** Lists, lookups and ordering *)

Lemma get_object_or_404_found {A} (queryset : list A) lookup a :
  get_object_or_404 queryset lookup = Return a ->
  In a queryset /\ lookup a = true.
Proof.
  unfold get_object_or_404, get; intros H.
  destruct (filter lookup queryset) as [|x [|y rest]] eqn:E; simpl in H;
    try discriminate.
  injection H as ->.
  apply filter_In. rewrite E. now left.
Qed.

Lemma get_object_or_404_missing {A} (queryset : list A) lookup :
  (forall a, In a queryset -> lookup a = false) ->
  get_object_or_404 queryset lookup = Raise Http404.
Proof.
  intros H. unfold get_object_or_404.
  replace (filter lookup queryset) with (@nil A); [reflexivity|].
  symmetry. induction queryset as [|x l IH]; simpl; [reflexivity|].
  rewrite (H x) by now left.
  apply IH. intros a Ha. apply H. now right.
Qed.

Lemma filter_unique {A K} (eqb : K -> K -> bool)
    (eqb_spec : forall x y, reflect (x = y) (eqb x y))
    (key : A -> K) (l : list A) (r : A) :
  NoDup (map key l) -> In r l ->
  filter (fun x => eqb (key x) (key r)) l = [r].
Proof.
  induction l as [|x l IH]; simpl; intros ND Hin; [contradiction|].
  inversion ND as [|? ? Hx ND']; subst.
  assert (Hnone : forall l', ~ In (key r) (map key l') ->
            filter (fun x => eqb (key x) (key r)) l' = []).
  { induction l' as [|y l' IH']; simpl; intros Hn; [reflexivity|].
    destruct (eqb_spec (key y) (key r)) as [E|E].
    - exfalso. apply Hn. now left.
    - apply IH'. intros H. apply Hn. now right. }
  destruct Hin as [->|Hin].
  - destruct (eqb_spec (key r) (key r)) as [_|E]; [|congruence].
    f_equal. now apply Hnone.
  - destruct (eqb_spec (key x) (key r)) as [E|E].
    + exfalso. apply Hx. rewrite E. now apply in_map.
    + now apply IH.
Qed.

Lemma filter_both {A} (f g : A -> bool) l :
  filter (fun x => f x && g x) l = filter g (filter f l).
Proof.
  induction l as [|x l IH]; simpl; [reflexivity|].
  destruct (f x); simpl; [|exact IH].
  destruct (g x); now rewrite IH.
Qed.

Lemma filter_swap {A} (f g : A -> bool) l :
  filter g (filter f l) = filter f (filter g l).
Proof.
  rewrite <- !filter_both. apply filter_ext. intros; apply andb_comm.
Qed.

(** A row of a table with unique keys is what its key looks up, in the
    whole table and in any filtered part that keeps the row. *)
Lemma get_object_or_404_unique {A K} (eqb : K -> K -> bool)
    (eqb_spec : forall x y, reflect (x = y) (eqb x y))
    (key : A -> K) (keep also : A -> bool) (l : list A) (r : A) :
  NoDup (map key l) -> In r l -> keep r = true -> also r = true ->
  get_object_or_404 (filter keep l)
    (fun x => eqb (key x) (key r) && also x) = Return r.
Proof.
  intros ND Hin Hkeep Halso. unfold get_object_or_404.
  rewrite filter_both.
  rewrite (filter_swap keep (fun x => eqb (key x) (key r))).
  rewrite (filter_unique eqb eqb_spec key l r ND Hin). simpl.
  rewrite Hkeep. simpl. now rewrite Halso.
Qed.

Lemma filter_true {A} (l : list A) : filter (fun _ => true) l = l.
Proof. induction l as [|x l IH]; simpl; [reflexivity|now rewrite IH]. Qed.

Lemma insert_ordered_perm o p l : Permutation (insert_ordered o p l) (p :: l).
Proof.
  induction l as [|q l IH]; simpl; [reflexivity|].
  destruct (precedes o p q); [reflexivity|].
  rewrite IH. apply perm_swap.
Qed.

Lemma order_by_perm o l : Permutation (order_by o l) l.
Proof.
  induction l as [|p l IH]; simpl; [constructor|].
  rewrite insert_ordered_perm. now constructor.
Qed.

Lemma order_by_In o l p : In p (order_by o l) <-> In p l.
Proof.
  split; apply Permutation_in;
    [apply order_by_perm | symmetry; apply order_by_perm].
Qed.

Lemma Post_objects_In project db p :
  In p (Post_objects project db) <-> In p (posts db).
Proof.
  unfold Post_objects, PostManager.get_queryset.
  destruct (Post_Meta_ordering project); [apply order_by_In | reflexivity].
Qed.

Lemma Post_objects_unique project db :
  NoDup (map post_pk (posts db)) ->
  NoDup (map post_pk (Post_objects project db)).
Proof.
  unfold Post_objects, PostManager.get_queryset.
  destruct (Post_Meta_ordering project) as [o|]; [|trivial].
  apply Permutation_NoDup, Permutation_map. symmetry. apply order_by_perm.
Qed.

Lemma get_object_found project db R :
  NoDup (map post_pk (posts db)) -> In R (posts db) ->
  get_object project db (post_pk R) = Return R.
Proof.
  intros ND Hin. unfold get_object.
  pose proof (@get_object_or_404_unique Post nat Nat.eqb Nat.eqb_spec post_pk
                (fun _ => true) (fun _ => true) (Post_objects project db) R
                (Post_objects_unique project db ND)
                (proj2 (Post_objects_In project db R) Hin)
                eq_refl eq_refl) as H.
  rewrite filter_true in H. rewrite <- H.
  unfold get_object_or_404. f_equal. f_equal.
  apply filter_ext. intros; now rewrite andb_true_r.
Qed.

Lemma insert_ordered_sorted p l :
  StronglySorted descending l ->
  StronglySorted descending (insert_ordered by_pub_date_desc p l).
Proof.
  induction 1 as [|q l Hs IH Hq]; simpl.
  - repeat constructor.
  - destruct (Z.leb_spec (pub_date q) (pub_date p)) as [Hle|Hlt].
    + constructor; [now constructor|].
      constructor; [exact Hle|].
      eapply Forall_impl; [|exact Hq].
      unfold descending; intros; lia.
    + constructor; [exact IH|].
      eapply Permutation_Forall; [symmetry; apply insert_ordered_perm|].
      constructor; [unfold descending; lia | exact Hq].
Qed.

Lemma order_by_sorted l :
  StronglySorted descending (order_by by_pub_date_desc l).
Proof.
  induction l as [|p l IH]; simpl; [constructor|].
  now apply insert_ordered_sorted.
Qed.

Lemma filter_sorted {A} (R : A -> A -> Prop) f l :
  StronglySorted R l -> StronglySorted R (filter f l).
Proof.
  induction 1 as [|a l Hs IH Ha]; simpl; [constructor|].
  destruct (f a); [|exact IH].
  constructor; [exact IH|].
  rewrite Forall_forall in *. intros x Hx.
  apply Ha. apply filter_In in Hx. tauto.
Qed.

Lemma sorted_stands_before l (a b : Post) :
  StronglySorted descending l -> In a l -> In b l ->
  (pub_date b < pub_date a)%Z -> stands_before a b l.
Proof.
  induction 1 as [|x l Hs IH Hx]; intros Ha Hb Hlt; [contradiction|].
  rewrite Forall_forall in Hx.
  destruct Ha as [->|Ha].
  - destruct Hb as [->|Hb]; [lia|].
    apply in_split in Hb as (l2 & l3 & ->).
    now exists [], l2, l3.
  - destruct Hb as [->|Hb].
    + specialize (Hx a Ha). unfold descending in Hx. lia.
    + destruct (IH Ha Hb Hlt) as (l1 & l2 & l3 & ->).
      now exists (x :: l1), l2, l3.
Qed.

(** ** Visibility of the listings *)

Lemma publicly_visibleb_spec db now p :
  publicly_visibleb db now p = true <-> publicly_visible db now p.
Proof.
  unfold publicly_visibleb, publicly_visible, category__is_published.
  rewrite !andb_true_iff, Z.leb_le.
  destruct (category_of db p) as [c|].
  - split.
    + intros [[H1 H2] H3]. repeat split; trivial. now exists c.
    + intros (H1 & H2 & c' & [= <-] & H3). tauto.
  - split.
    + intros [_ H]. discriminate.
    + intros (_ & _ & c' & H & _). discriminate.
Qed.

(** C1. A post is in the public home listing iff it is a row of the post
    table whose published flag is set, whose publish timestamp is not
    after the current time and whose category's published flag is set. *)
Theorem home_listing_iff_visible project db now P :
  In P (PostListView.get_queryset project db now)
  <-> In P (posts db)
      /\ is_published P = true
      /\ (pub_date P <= now)%Z
      /\ exists c, category_of db P = Some c /\ category_is_published c = true.
Proof.
  unfold PostListView.get_queryset, PublishedPostManager.get_queryset.
  rewrite filter_In.
  change (PostManager.get_queryset (Post_Meta_ordering project) db)
    with (Post_objects project db).
  rewrite Post_objects_In.
  pose proof (publicly_visibleb_spec db now P) as V.
  unfold publicly_visibleb, publicly_visible in V.
  rewrite <- V, !andb_true_iff, Z.leb_le.
  tauto.
Qed.

(** C7. With the post model ordered by descending publish timestamp, the
    public home listing is in that order: of two listed posts the one with
    the later publish timestamp stands first. *)
Theorem home_listing_descending project db now :
  Post_Meta_ordering project = Some by_pub_date_desc ->
  StronglySorted descending (PostListView.get_queryset project db now)
  /\ forall A B,
       In A (PostListView.get_queryset project db now) ->
       In B (PostListView.get_queryset project db now) ->
       (pub_date B < pub_date A)%Z ->
       stands_before A B (PostListView.get_queryset project db now).
Proof.
  intros Hmeta.
  assert (S : StronglySorted descending
                (PostListView.get_queryset project db now)).
  { unfold PostListView.get_queryset, PublishedPostManager.get_queryset,
      PostManager.get_queryset.
    rewrite Hmeta. apply filter_sorted, order_by_sorted. }
  split; [exact S|].
  intros A B HA HB Hlt. now apply sorted_stands_before.
Qed.

Lemma home_listing_descending_witness :
  PostListView.get_queryset (Sample.project (Some by_pub_date_desc))
    Sample.db Sample.now = [Sample.recent; Sample.early]
  /\ stands_before Sample.recent Sample.early
       (PostListView.get_queryset (Sample.project (Some by_pub_date_desc))
          Sample.db Sample.now).
Proof.
  split; [reflexivity|].
  apply (home_listing_descending (Sample.project (Some by_pub_date_desc))
           Sample.db Sample.now eq_refl).
  - simpl; auto.
  - simpl; auto.
  - simpl; lia.
Defined.

(** The [ordering] attribute of the home view plays no part: without a
    default ordering of the model the listing follows the table. *)
Remark home_listing_follows_the_table :
  PostListView.get_queryset (Sample.project None) Sample.db Sample.now
  = [Sample.early; Sample.recent].
Proof. reflexivity. Qed.

(** ** The detail view *)

Lemma get_object_or_404_row {A K} (eqb : K -> K -> bool)
    (eqb_spec : forall x y, reflect (x = y) (eqb x y))
    (key : A -> K) (also : A -> bool) (l : list A) (r : A) :
  NoDup (map key l) -> In r l -> also r = true ->
  get_object_or_404 l (fun x => eqb (key x) (key r) && also x) = Return r.
Proof.
  intros ND Hin Halso.
  rewrite <- (filter_true l) at 1.
  now apply get_object_or_404_unique.
Qed.

Lemma get_object_or_404_ext {A} (l : list A) (f g : A -> bool) :
  (forall a, f a = g a) -> get_object_or_404 l f = get_object_or_404 l g.
Proof.
  intros E. unfold get_object_or_404. now rewrite (filter_ext f g E).
Qed.

Lemma get_object_or_404_key {A K} (eqb : K -> K -> bool)
    (eqb_spec : forall x y, reflect (x = y) (eqb x y))
    (key : A -> K) (l : list A) (r : A) :
  NoDup (map key l) -> In r l ->
  get_object_or_404 l (fun x => eqb (key x) (key r)) = Return r.
Proof.
  intros ND Hin.
  rewrite <- (get_object_or_404_row eqb eqb_spec key (fun _ => true) l r)
    by trivial.
  apply get_object_or_404_ext. intros; now rewrite andb_true_r.
Qed.

(** What the detail view's lookup gives an authenticated requester: the
    post with that key when its published flag is set or the requester
    wrote it. *)
Lemma detail_view_get_object project db request V pk P :
  NoDup (map post_pk (posts db)) -> user request = Some V ->
  PostDetailView.get_object project db request pk = Return P
  <-> In P (posts db) /\ post_pk P = pk
      /\ (is_published P = true \/ post_author P = user_pk V).
Proof.
  intros ND HV. unfold PostDetailView.get_object. rewrite HV. split.
  - intros H. apply get_object_or_404_found in H as [Hin Hpk].
    apply filter_In in Hin as [Hin Hvis].
    apply Post_objects_In in Hin. apply Nat.eqb_eq in Hpk.
    apply orb_true_iff in Hvis. unfold is_author in Hvis.
    rewrite Nat.eqb_eq in Hvis. tauto.
  - intros (Hin & <- & Hvis).
    pose proof (@get_object_or_404_unique Post nat Nat.eqb Nat.eqb_spec
                  post_pk
                  (fun p => is_published p || is_author (post_author p) V)
                  (fun _ => true) (Post_objects project db) P
                  (Post_objects_unique project db ND)
                  (proj2 (Post_objects_In project db P) Hin)) as H.
    rewrite <- H; trivial.
    + apply get_object_or_404_ext. intros; now rewrite andb_true_r.
    + apply orb_true_iff. unfold is_author. rewrite Nat.eqb_eq. tauto.
Qed.

(** C2. The detail view hands a post whose published flag is set to a
    requester who is not its author although the post is not publicly
    visible: scheduled for a later time, or filed in a category that is
    not published. *)
Theorem detail_view_serves_hidden_posts :
  let request := Sample.request (Some Sample.bob) GET [] page_absent in
  let project := Sample.project (Some by_pub_date_desc) in
  post_author Sample.scheduled <> user_pk Sample.bob
  /\ ~ publicly_visible Sample.db Sample.now Sample.scheduled
  /\ PostDetailView.get_object project Sample.db request 2
     = Return Sample.scheduled
  /\ post_author Sample.in_hidden <> user_pk Sample.bob
  /\ ~ publicly_visible Sample.db Sample.now Sample.in_hidden
  /\ PostDetailView.get_object project Sample.db request 3
     = Return Sample.in_hidden.
Proof.
  cbv zeta. repeat split; try discriminate; try reflexivity.
  - intros (_ & H & _). simpl in H. unfold Sample.now in H. lia.
  - intros (_ & _ & c & Hc & Hp). simpl in Hc. injection Hc as <-.
    discriminate.
Qed.

(** ** The ownership guard *)

Lemma comment_lookup db R :
  NoDup (map comment_pk (comments db)) -> In R (comments db) ->
  get_object_or_404 (comments db)
    (fun c => (comment_pk c =? comment_pk R)
              && (comment_post c =? comment_post R)) = Return R.
Proof.
  intros ND Hin.
  apply (get_object_or_404_row Nat.eqb Nat.eqb_spec comment_pk
           (fun c => comment_post c =? comment_post R)); trivial.
  apply Nat.eqb_refl.
Qed.

Lemma user_lookup db R :
  NoDup (map username (users db)) -> In R (users db) ->
  get_object_or_404 (users db) (fun u => (username u =? username R)%string)
  = Return R.
Proof.
  intros ND Hin.
  now apply (get_object_or_404_key String.eqb String.eqb_spec username).
Qed.

Lemma not_author author V : author <> user_pk V -> is_author author V = false.
Proof. intros H. now apply Nat.eqb_neq. Qed.

(** C3 (as amended). An edit or delete request by an authenticated user
    who is not the author leaves the database as it was and is redirected:
    for a post to the post's detail page, for a comment to the detail page
    of the comment's post, for a user profile to the login page. *)
Theorem foreign_edit_or_delete_is_redirected project db request V :
  integrity db -> user request = Some V ->
  (forall R, In R (posts db) -> post_author R <> user_pk V ->
     PostUpdateView.dispatch project db request (post_pk R)
     = (db, Return (redirect (reverse "blog:post_detail"
                                [int_arg (post_pk R)])))
     /\ PostDeleteView.dispatch project db request (post_pk R)
        = (db, Return (redirect (reverse "blog:post_detail"
                                   [int_arg (post_pk R)]))))
  /\ (forall R, In R (comments db) -> comment_author R <> user_pk V ->
        edit_comment project db request (comment_pk R) (comment_post R)
        = (db, Return (redirect (reverse "blog:post_detail"
                                   [int_arg (comment_post R)])))
        /\ delete_comment db request (comment_pk R) (comment_post R)
           = (db, Return (redirect (reverse "blog:post_detail"
                                      [int_arg (comment_post R)]))))
  /\ (forall R, In R (users db) -> username R <> username V ->
        edit_profile project db request (username R)
        = (db, Return (redirect (reverse "login" [])))).
Proof.
  intros I HV. split; [|split]; intros R H Hother; [split|split|].
  - unfold PostUpdateView.dispatch, login_required, DispatchMixin.dispatch.
    rewrite HV, (get_object_found project db R (unique_post_pk I) H). simpl.
    now rewrite not_author.
  - unfold PostDeleteView.dispatch, login_required, DispatchMixin.dispatch.
    rewrite HV, (get_object_found project db R (unique_post_pk I) H). simpl.
    now rewrite not_author.
  - unfold edit_comment, login_required.
    rewrite HV, (comment_lookup db R (unique_comment_pk I) H). simpl.
    now rewrite not_author.
  - unfold delete_comment, login_required.
    rewrite HV, (comment_lookup db R (unique_comment_pk I) H). simpl.
    now rewrite not_author.
  - unfold edit_profile, request_username.
    rewrite HV, (user_lookup db R (unique_username I) H). simpl.
    destruct (String.eqb_spec (username R) (username V)); [contradiction|].
    reflexivity.
Qed.

Lemma sample_integrity : integrity Sample.db.
Proof.
  split; simpl; repeat constructor; simpl; intuition discriminate.
Qed.

Lemma foreign_edit_or_delete_is_redirected_witness :
  PostUpdateView.dispatch (Sample.project None) Sample.db
    (Sample.request (Some Sample.bob) POST [("title", "mine now")] page_absent)
    1
  = (Sample.db, Return (redirect (reverse "blog:post_detail" [int_arg 1]))).
Proof.
  refine (proj1 (proj1 (@foreign_edit_or_delete_is_redirected
            (Sample.project None) Sample.db
            (Sample.request (Some Sample.bob) POST [("title", "mine now")]
               page_absent)
            Sample.bob sample_integrity eq_refl) Sample.early _ _)).
  - simpl; auto.
  - simpl; lia.
Defined.

(** C3, as stated, fails on the profile: Bob's request to edit Alice's
    profile is not redirected to her profile page but to the login page. *)
Lemma foreign_profile_edit_goes_to_login :
  let request :=
    Sample.request (Some Sample.bob) POST [("first_name", "Eve")] page_absent in
  username Sample.alice <> username Sample.bob
  /\ edit_profile (Sample.project None) Sample.db request "alice"
     = (Sample.db, Return (redirect (reverse "login" [])))
  /\ snd (edit_profile (Sample.project None) Sample.db request "alice")
     <> Return (redirect (reverse "blog:profile" [str_arg "alice"])).
Proof.
  cbv zeta. repeat split; discriminate.
Qed.

(** ** Comments *)

(** C4 (as amended). A comment-creation request persists a comment only
    when a post with the requested key exists, whether or not that post is
    publicly visible, and then the comment is the requester's and hangs on
    that post; a request for a key that no post has persists nothing. *)
Theorem comment_needs_an_existing_post project db now request pk :
  (fst (add_comment project db now request pk) = db
   \/ exists V P c,
        user request = Some V /\ In P (posts db) /\ post_pk P = pk
        /\ comment_author c = user_pk V /\ comment_post c = post_pk P
        /\ fst (add_comment project db now request pk) = insert_comment db c)
  /\ ((forall P, In P (posts db) -> post_pk P <> pk) ->
      fst (add_comment project db now request pk) = db).
Proof.
  unfold add_comment, login_required.
  destruct (user request) as [V|]; [|simpl; auto].
  destruct (get_object_or_404 (Post_objects project db)
              (fun p => post_pk p =? pk)) as [P|e] eqn:E; simpl; [|auto].
  apply get_object_or_404_found in E as [Hin Hpk].
  apply Post_objects_In in Hin. apply Nat.eqb_eq in Hpk.
  split.
  - destruct (full_clean _ _) as [cleaned|]; [right|now left].
    eexists V, P, _. repeat split; trivial.
  - intros Hno. now destruct (Hno P Hin).
Qed.

Lemma comment_needs_an_existing_post_witness :
  fst (add_comment (Sample.project None) Sample.db Sample.now
         (Sample.request (Some Sample.bob) POST [("text", "hi")] page_absent)
         99)
  = Sample.db.
Proof.
  apply (proj2 (comment_needs_an_existing_post (Sample.project None)
                  Sample.db Sample.now
                  (Sample.request (Some Sample.bob) POST [("text", "hi")]
                     page_absent) 99)).
  simpl. intros P H. intuition (subst; discriminate).
Defined.

(** C4, as stated, fails: Bob's comment on Alice's draft, a post that is
    not publicly visible, is persisted. *)
Lemma comment_lands_on_a_draft :
  let request :=
    Sample.request (Some Sample.bob) POST [("text", "hi")] page_absent in
  ~ publicly_visible Sample.db Sample.now Sample.draft
  /\ comments (fst (add_comment (Sample.project None) Sample.db Sample.now
                      request (post_pk Sample.draft)))
     = [Sample.first_comment;
        {| comment_pk := 2; comment_author := 2; comment_post := 4;
           comment_text := "hi"; created_at := 300 |}].
Proof.
  cbv zeta. split; [|reflexivity].
  intros (H & _). discriminate.
Qed.

(** C10. A request of a comment's author to the delete route with a method
    other than POST leaves the database as it was and renders the
    confirmation page; a request to the delete route that changes the
    database is a POST request. *)
Theorem comment_deleted_only_on_POST db request :
  (forall V R,
     integrity db -> user request = Some V -> In R (comments db) ->
     comment_author R = user_pk V -> method request <> POST ->
     delete_comment db request (comment_pk R) (comment_post R)
     = (db, Return (render "blog/comment.html" [("comment", a_comment R)]
                      HTTPStatus_OK)))
  /\ (forall comment_id post_id,
        fst (delete_comment db request comment_id post_id) <> db ->
        method request = POST).
Proof.
  split.
  - intros V R I HV Hin Hauthor Hmethod.
    unfold delete_comment, login_required.
    rewrite HV, (comment_lookup db R (unique_comment_pk I) Hin). simpl.
    unfold is_author. rewrite Hauthor, Nat.eqb_refl. simpl.
    destruct (method request); try reflexivity. contradiction.
  - intros comment_id post_id. unfold delete_comment, login_required.
    destruct (user request) as [V|]; simpl; [|contradiction].
    destruct (get_object_or_404 _ _) as [R|e]; simpl; [|contradiction].
    destruct (is_author _ _); simpl; [|contradiction].
    destruct (method request); simpl; try contradiction. reflexivity.
Qed.

Lemma comment_deleted_only_on_POST_witness :
  delete_comment Sample.db
    (Sample.request (Some Sample.alice) GET [] page_absent) 1 1
  = (Sample.db,
     Return (render "blog/comment.html"
               [("comment", a_comment Sample.first_comment)] HTTPStatus_OK)).
Proof.
  apply (proj1 (comment_deleted_only_on_POST Sample.db
                  (Sample.request (Some Sample.alice) GET [] page_absent))
           Sample.alice Sample.first_comment sample_integrity eq_refl).
  - simpl; auto.
  - reflexivity.
  - discriminate.
Defined.

(** ** Invalid forms *)

Lemma invalid_form {I} (form_class : option I -> QueryDict -> option I) form :
  is_valid form_class form = false -> full_clean form_class form = None.
Proof.
  unfold is_valid. now destruct (full_clean form_class form).
Qed.

(** C5 (as amended). A request whose form fails validation persists
    nothing.  Post creation, comment edit and profile edit answer it with
    the same form rendered again; comment creation answers it with a
    redirect to the detail page of the post. *)
Theorem invalid_form_persists_nothing project db now request V :
  integrity db -> user request = Some V ->
  (let form := {| data := Some (POST_data request); instance := None |} in
   method request = POST \/ method request = PUT ->
   is_valid (PostForm project db) form = false ->
   PostCreateView.dispatch project db request
   = (db, Return (render "blog/create.html" [("form", a_post_form form)]
                    HTTPStatus_OK)))
  /\ (forall R,
        let form := {| data := POST_or_None request; instance := Some R |} in
        In R (comments db) -> comment_author R = user_pk V ->
        is_valid (CommentForm project db) form = false ->
        edit_comment project db request (comment_pk R) (comment_post R)
        = (db, Return (render "blog/comment.html"
                         [("form", a_comment_form form);
                          ("comment", a_comment R)] HTTPStatus_OK)))
  /\ (forall R,
        let form := {| data := POST_or_None request; instance := Some R |} in
        In R (users db) -> username R = username V ->
        is_valid (ProfileForm project db) form = false ->
        edit_profile project db request (username R)
        = (db, Return (render "blog/user.html"
                         [("form", a_profile_form form)] HTTPStatus_OK)))
  /\ (forall P,
        let form := {| data := POST_or_None request; instance := None |} in
        In P (posts db) ->
        is_valid (CommentForm project db) form = false ->
        add_comment project db now request (post_pk P)
        = (db, Return (redirect (reverse "blog:post_detail"
                                   [int_arg (post_pk P)])))).
Proof.
  intros I HV. split; [|split; [|split]].
  - intros form Hmethod Hinvalid. apply invalid_form in Hinvalid.
    unfold PostCreateView.dispatch, login_required. rewrite HV.
    fold form. destruct Hmethod as [-> | ->]; now rewrite Hinvalid.
  - intros R form Hin Hauthor Hinvalid. apply invalid_form in Hinvalid.
    unfold edit_comment, login_required.
    rewrite HV, (comment_lookup db R (unique_comment_pk I) Hin). simpl.
    unfold is_author. rewrite Hauthor, Nat.eqb_refl. simpl.
    fold form. now rewrite Hinvalid.
  - intros R form Hin Hname Hinvalid. apply invalid_form in Hinvalid.
    unfold edit_profile, request_username.
    rewrite HV, (user_lookup db R (unique_username I) Hin). simpl.
    rewrite Hname, String.eqb_refl. simpl.
    fold form. now rewrite Hinvalid.
  - intros P form Hin Hinvalid. apply invalid_form in Hinvalid.
    unfold add_comment, login_required. rewrite HV.
    fold (get_object project db (post_pk P)).
    rewrite (get_object_found project db P (unique_post_pk I) Hin). simpl.
    fold form. now rewrite Hinvalid.
Qed.

Lemma invalid_form_persists_nothing_witness :
  edit_comment (Sample.project None) Sample.db
    (Sample.request (Some Sample.alice) POST [("text", "")] page_absent) 1 1
  = (Sample.db,
     Return (render "blog/comment.html"
               [("form",
                 a_comment_form {| data := Some [("text", "")];
                                   instance := Some Sample.first_comment |});
                ("comment", a_comment Sample.first_comment)] HTTPStatus_OK)).
Proof.
  refine (proj1 (proj2 (@invalid_form_persists_nothing (Sample.project None)
            Sample.db Sample.now
            (Sample.request (Some Sample.alice) POST [("text", "")]
               page_absent)
            Sample.alice sample_integrity eq_refl))
            Sample.first_comment _ _ _).
  - simpl; auto.
  - reflexivity.
  - reflexivity.
Defined.

(** C5, as stated, fails on comment creation: an invalid comment form is
    not rendered again, the response is a redirect. *)
Lemma invalid_new_comment_is_redirected :
  let request :=
    Sample.request (Some Sample.bob) POST [("text", "")] page_absent in
  is_valid (CommentForm (Sample.project None) Sample.db)
    {| data := POST_or_None request; instance := None |} = false
  /\ add_comment (Sample.project None) Sample.db Sample.now request 1
     = (Sample.db, Return (redirect (reverse "blog:post_detail" [int_arg 1])))
  /\ forall template context status,
       snd (add_comment (Sample.project None) Sample.db Sample.now request 1)
       <> Return (render template context status).
Proof.
  cbv zeta. repeat split. discriminate.
Qed.

(** ** Categories *)

Lemma unique_row {A K} (key : A -> K) (l : list A) (a b : A) :
  NoDup (map key l) -> In a l -> In b l -> key a = key b -> a = b.
Proof.
  induction l as [|x l IH]; simpl; intros ND Ha Hb E; [contradiction|].
  inversion ND as [|? ? Hx ND']; subst.
  destruct Ha as [->|Ha], Hb as [->|Hb]; trivial.
  - exfalso. apply Hx. rewrite E. now apply in_map.
  - exfalso. apply Hx. rewrite <- E. now apply in_map.
  - now apply IH.
Qed.

(** C9. A request to the category route whose slug names a category with
    the published flag off raises [Http404], answered by the 404 page; a
    category page that is served shows a category whose published flag is
    set. *)
Theorem unpublished_category_is_not_found project db now request :
  (forall c,
     integrity db -> In c (categories db) -> category_is_published c = false ->
     category_posts project db now request (slug c) = (db, Raise Http404)
     /\ (fails_csrf request = false ->
         get_response project db now request (route_category_posts (slug c))
         = (db, render "core/404.html" [] HTTPStatus_NOT_FOUND)))
  /\ (forall category_slug db' template context status,
        category_posts project db now request category_slug
        = (db', Return (render template context status)) ->
        exists c,
          In c (categories db) /\ slug c = category_slug
          /\ category_is_published c = true
          /\ In ("category", a_category c) context).
Proof.
  split.
  - intros c I Hin Hoff.
    assert (E : category_posts project db now request (slug c)
                = (db, Raise Http404)).
    { unfold category_posts. rewrite get_object_or_404_missing; [reflexivity|].
      intros c' Hin'. apply andb_false_iff.
      destruct (String.eqb_spec (slug c') (slug c)) as [Es|]; [|now right].
      left. now rewrite (unique_row slug _ c' c (unique_slug I) Hin' Hin Es). }
    split; [exact E|].
    intros Hcsrf. unfold get_response. rewrite Hcsrf. simpl resolve.
    now rewrite E.
  - intros category_slug db' template context status. unfold category_posts.
    destruct (get_object_or_404 _ _) as [c|e] eqn:E; simpl; [|discriminate].
    apply get_object_or_404_found in E as [Hin Hc].
    apply andb_true_iff in Hc as [Hpub Hslug]. apply String.eqb_eq in Hslug.
    destruct (paginate_objects _ _ _) as [pg|e]; simpl; [|discriminate].
    intros [= <- <- <- <-]. exists c. simpl. auto.
Qed.

Lemma unpublished_category_is_not_found_witness :
  category_posts (Sample.project None) Sample.db Sample.now
    (Sample.request None GET [] page_absent) "hidden"
  = (Sample.db, Raise Http404).
Proof.
  apply (proj1 (unpublished_category_is_not_found (Sample.project None)
                  Sample.db Sample.now
                  (Sample.request None GET [] page_absent))
           Sample.hidden sample_integrity).
  - simpl; auto.
  - reflexivity.
Defined.

(** ** Error pages *)

Lemma existsb_none {A} (f : A -> bool) l :
  existsb f l = false -> forall a, In a l -> f a = false.
Proof.
  intros H a Hin. destruct (f a) eqn:E; [|reflexivity].
  rewrite <- H. symmetry. apply existsb_exists. now exists a.
Qed.

Lemma missing_post project db pk (keep : Post -> bool) :
  existsb (fun p => post_pk p =? pk) (posts db) = false ->
  get_object_or_404 (filter keep (Post_objects project db))
    (fun p => post_pk p =? pk) = Raise Http404.
Proof.
  intros H. apply get_object_or_404_missing. intros p Hin.
  apply filter_In in Hin as [Hin _]. apply Post_objects_In in Hin.
  now apply (existsb_none _ _ H).
Qed.

Lemma missing_post_object project db pk :
  existsb (fun p => post_pk p =? pk) (posts db) = false ->
  get_object project db pk = Raise Http404.
Proof.
  intros H. unfold get_object.
  rewrite <- (filter_true (Post_objects project db)).
  now apply missing_post.
Qed.

(** C8 (as amended). A request that gets as far as the view's lookup and
    names, by a slug, a user name or integer keys in the range of the key
    column, a record that does not exist is answered with status 404 and
    the rendered error page, the database as it was; a request that fails
    the CSRF check is answered with status 403 and the rendered error
    page, whatever it names.  The two pages are what [page_not_found] and
    [csrf_failure] render for every request, exception and reason. *)
Theorem error_pages project db now request route :
  (targets_missing_record db route = true ->
   keys_in_range route = true ->
   reaches_lookup request route = true ->
   get_response project db now request route
   = (db, render "core/404.html" [] HTTPStatus_NOT_FOUND))
  /\ (fails_csrf request = true ->
      get_response project db now request route
      = (db, render "core/403csrf.html" [] HTTPStatus_FORBIDDEN))
  /\ (forall exception,
        page_not_found request exception
        = render "core/404.html" [] HTTPStatus_NOT_FOUND)
  /\ (forall reason,
        csrf_failure request reason
        = render "core/403csrf.html" [] HTTPStatus_FORBIDDEN).
Proof.
  split; [|split; [|split; reflexivity]].
  - intros Hmissing _ Hreach. unfold reaches_lookup in Hreach.
    apply andb_true_iff in Hreach as [Hcsrf Hgate].
    apply negb_true_iff in Hcsrf.
    unfold get_response. rewrite Hcsrf.
    unfold is_authenticated in Hgate.
    destruct route; simpl in Hmissing; try discriminate;
      apply negb_true_iff in Hmissing; simpl resolve.
    + unfold category_posts.
      rewrite get_object_or_404_missing; [reflexivity|].
      intros c Hin. rewrite (existsb_none _ _ Hmissing c Hin).
      apply andb_false_r.
    + unfold PostDetailView.dispatch, PostDetailView.get_object.
      destruct (user request) as [V|]; [|discriminate].
      destruct (method request); try discriminate;
        now rewrite missing_post.
    + unfold PostUpdateView.dispatch, login_required, DispatchMixin.dispatch.
      destruct (user request) as [V|]; [|discriminate].
      now rewrite missing_post_object.
    + unfold PostDeleteView.dispatch, login_required, DispatchMixin.dispatch.
      destruct (user request) as [V|]; [|discriminate].
      now rewrite missing_post_object.
    + unfold add_comment, login_required.
      destruct (user request) as [V|]; [|discriminate].
      fold (get_object project db pk).
      now rewrite missing_post_object.
    + unfold edit_comment, login_required.
      destruct (user request) as [V|]; [|discriminate].
      rewrite get_object_or_404_missing; [reflexivity|].
      now apply existsb_none.
    + unfold delete_comment, login_required.
      destruct (user request) as [V|]; [|discriminate].
      rewrite get_object_or_404_missing; [reflexivity|].
      now apply existsb_none.
    + unfold info_profile.
      rewrite get_object_or_404_missing; [reflexivity|].
      now apply existsb_none.
    + unfold edit_profile.
      rewrite get_object_or_404_missing; [reflexivity|].
      now apply existsb_none.
  - intros Hcsrf. unfold get_response. now rewrite Hcsrf.
Qed.

Lemma error_pages_witness :
  get_response (Sample.project None) Sample.db Sample.now
    (Sample.request (Some Sample.bob) POST [("text", "hi")] page_absent)
    (route_add_comment 99)
  = (Sample.db, render "core/404.html" [] HTTPStatus_NOT_FOUND).
Proof.
  apply (proj1 (error_pages (Sample.project None) Sample.db Sample.now
                  (Sample.request (Some Sample.bob) POST [("text", "hi")]
                     page_absent)
                  (route_add_comment 99))); reflexivity.
Defined.

(** C8, as stated, fails: an anonymous request for a post that does not
    exist, on a route that requires login, is redirected to the login page;
    a request that names a missing record and fails the CSRF check gets
    403, not 404. *)
Lemma missing_record_without_404 :
  let anonymous :=
    Sample.request None POST [("text", "hi")] page_absent in
  let forged :=
    {| user := Some Sample.bob; method := POST; GET_page := page_absent;
       POST_data := [("text", "hi")]; csrf_token_valid := false |} in
  targets_missing_record Sample.db (route_add_comment 99) = true
  /\ get_response (Sample.project None) Sample.db Sample.now anonymous
       (route_add_comment 99)
     = (Sample.db, redirect LOGIN_URL)
  /\ get_response (Sample.project None) Sample.db Sample.now forged
       (route_add_comment 99)
     = (Sample.db, render "core/403csrf.html" [] HTTPStatus_FORBIDDEN)
  /\ (forall template context,
        snd (get_response (Sample.project None) Sample.db Sample.now
               anonymous (route_add_comment 99))
        <> render template context HTTPStatus_NOT_FOUND)
  /\ (forall template context,
        snd (get_response (Sample.project None) Sample.db Sample.now
               forged (route_add_comment 99))
        <> render template context HTTPStatus_NOT_FOUND).
Proof.
  cbv zeta. repeat split; discriminate.
Qed.

(** ** Pagination *)

Lemma ceil_div_spec N K :
  0 < K -> ceil_div N K = N / K + (if N mod K =? 0 then 0 else 1).
Proof.
  intros HK. unfold ceil_div.
  pose proof (Nat.div_mod_eq N K) as E.
  pose proof (Nat.mod_upper_bound N K ltac:(lia)) as Hr.
  destruct (Nat.eqb_spec (N mod K) 0) as [Z0|NZ]; symmetry.
  - apply Nat.div_unique with (r := K - 1); lia.
  - apply Nat.div_unique with (r := N mod K - 1); lia.
Qed.

Lemma last_page_positive N K : 0 < K -> 1 <= last_page N K.
Proof.
  intros HK. unfold last_page.
  destruct (Nat.eqb_spec N 0) as [|HN]; [lia|].
  rewrite ceil_div_spec by trivial.
  pose proof (Nat.div_mod_eq N K) as E.
  destruct (Nat.eqb_spec (N mod K) 0) as [Z0|NZ]; [|lia].
  destruct (N / K); lia.
Qed.

Lemma nonzero_branch {B} (n : nat) (a b : B) :
  0 < n -> match n with O => a | S _ => b end = b.
Proof. destruct n; [lia|reflexivity]. Qed.

Section PaginationFacts.

Variable A : Type.
Variable records : list A.
Variable K : nat.
Hypothesis K_positive : 0 < K.

Let pg := {| object_list := records; per_page := K |}.
Let N := List.length records.
Let last := last_page N K.

Lemma num_pages_value : num_pages pg = Return (Z.of_nat last).
Proof.
  unfold num_pages, count, orphans, allow_empty_first_page. simpl.
  rewrite andb_false_r, nonzero_branch by trivial. f_equal.
  unfold last, last_page. fold N.
  destruct (Nat.eqb_spec N 0) as [->|HN].
  - replace (Z.max 1 (Z.of_nat 0 - 0) + Z.of_nat K - 1)%Z
      with (Z.of_nat K) by lia.
    apply Z.div_same. lia.
  - replace (Z.max 1 (Z.of_nat N - 0) + Z.of_nat K - 1)%Z
      with (Z.of_nat (N + K - 1)) by lia.
    unfold ceil_div. now rewrite Nat2Z.inj_div.
Qed.

Lemma page_in_range m :
  S m <= last ->
  page pg (page_int (Z.of_nat (S m)))
  = Return {| page_object_list := firstn K (skipn (m * K) records);
              number := Z.of_nat (S m);
              paginator := pg |}.
Proof.
  intros Hm. remember (Z.of_nat (S m)) as n eqn:En.
  unfold page, validate_number.
  rewrite num_pages_value. cbn [bind].
  destruct (Z.ltb_spec n 1) as [|_]; [lia|].
  destruct (Z.ltb_spec (Z.of_nat last) n) as [|_]; [lia|].
  cbn [bind]. f_equal. f_equal. unfold slice, count, orphans.
  cbn [object_list per_page pg]. fold N.
  replace ((n - 1) * Z.of_nat K)%Z with (Z.of_nat (m * K)) by lia.
  rewrite Nat2Z.id.
  destruct (Z.leb_spec (Z.of_nat N) (Z.of_nat (m * K) + Z.of_nat K + 0))
    as [Hshort|Hfull].
  - assert (Hlen : List.length (skipn (m * K) records) <= K)
      by (rewrite length_skipn; fold N; lia).
    rewrite !firstn_all2; trivial.
    rewrite length_skipn. fold N. lia.
  - f_equal. lia.
Qed.

Lemma served_number_in_range number :
  1 <= served_number last number <= last.
Proof.
  pose proof (last_page_positive N K_positive) as Hlast. fold last in Hlast.
  unfold served_number. destruct number as [| |n]; try lia.
  destruct (Z.leb_spec 1 n), (Z.leb_spec n (Z.of_nat last)); simpl; lia.
Qed.

Lemma get_page_value number :
  get_page pg number
  = Return {| page_object_list :=
                firstn K
                  (skipn ((served_number last number - 1) * K) records);
              number := Z.of_nat (served_number last number);
              paginator := pg |}.
Proof.
  pose proof (served_number_in_range number) as Hn.
  pose proof (last_page_positive N K_positive) as Hlast. fold last in Hlast.
  assert (E : forall k, 1 <= k <= last ->
              page pg (page_int (Z.of_nat k))
              = Return {| page_object_list :=
                            firstn K (skipn ((k - 1) * K) records);
                          number := Z.of_nat k; paginator := pg |}).
  { intros [|m] Hk; [lia|]. rewrite page_in_range by lia.
    now rewrite Nat.sub_succ, Nat.sub_0_r. }
  unfold get_page, validate_number. rewrite num_pages_value.
  destruct number as [| |n]; simpl bind; try (apply (E 1); lia).
  unfold served_number in *.
  destruct (Z.ltb_spec n 1) as [Hlow|Hlow].
  - destruct (Z.leb_spec 1 n); [lia|]. simpl in *. now apply E.
  - destruct (Z.leb_spec 1 n); [|lia].
    destruct (Z.ltb_spec (Z.of_nat last) n) as [Hhigh|Hhigh].
    + destruct (Z.leb_spec n (Z.of_nat last)); [lia|].
      destruct (Z.eqb_spec n 1); [lia|]. simpl in *. now apply E.
    + destruct (Z.leb_spec n (Z.of_nat last)); [|lia]. simpl in *.
      rewrite <- (Z2Nat.id n) at 1 by lia. now apply E.
Qed.

Lemma last_page_length :
  0 < N ->
  List.length (firstn K (skipn ((last - 1) * K) records))
  = if N mod K =? 0 then K else N mod K.
Proof.
  intros HN. rewrite length_firstn, length_skipn. fold N.
  unfold last, last_page.
  destruct (Nat.eqb_spec N 0) as [|_]; [lia|].
  rewrite ceil_div_spec by trivial.
  pose proof (Nat.div_mod_eq N K) as E.
  pose proof (Nat.mod_upper_bound N K ltac:(lia)) as Hr.
  destruct (Nat.eqb_spec (N mod K) 0) as [Z0|NZ].
  - destruct (N / K) as [|q] eqn:Eq; [lia|].
    replace (S q + 0 - 1) with q by lia. nia.
  - replace (N / K + 1 - 1) with (N / K) by lia. nia.
Qed.

End PaginationFacts.

(** C6 (as amended). For a list of [N] records and a page size [K >= 1]
    the pagination helper serves page 1 when the page parameter is absent
    or is no integer, the requested page when its number is one of
    [1 .. last], and the last page for every other integer, below 1 as
    well as beyond the last page.  The page holds the [K] records from
    position [(number - 1) * K] on, as far as there are any.  For
    [N >= 1] the last page is page [ceil(N / K)] and holds [N mod K]
    records, or [K] when [K] divides [N]; for [N = 0] it is page 1 and
    holds nothing.  The page carries the previous and next flags and the
    number of pages. *)
Theorem paginate_objects_serves {A} request (records : list A) (K : nat) :
  0 < K ->
  let N := List.length records in
  let last := last_page N K in
  exists pg,
    paginate_objects request records K = Return pg
    /\ (forall s,
          GET_page request = page_absent \/ GET_page request = page_text s ->
          number pg = 1%Z)
    /\ (forall n,
          GET_page request = page_int n -> (1 <= n <= Z.of_nat last)%Z ->
          number pg = n)
    /\ (forall n,
          GET_page request = page_int n -> (n < 1 \/ Z.of_nat last < n)%Z ->
          number pg = Z.of_nat last)
    /\ page_object_list pg
       = firstn K (skipn ((Z.to_nat (number pg) - 1) * K) records)
    /\ (0 < N ->
        last = ceil_div N K
        /\ (number pg = Z.of_nat last ->
            List.length (page_object_list pg)
            = if N mod K =? 0 then K else N mod K))
    /\ (N = 0 -> last = 1 /\ page_object_list pg = [])
    /\ has_previous pg = (1 <? number pg)%Z
    /\ has_next pg = Return (number pg <? Z.of_nat last)%Z
    /\ num_pages (paginator pg) = Return (Z.of_nat last).
Proof.
  intros HK N last.
  pose proof (served_number_in_range records HK (GET_page request)) as Hn.
  fold N last in Hn.
  eexists. split; [unfold paginate_objects; now apply get_page_value|].
  cbn [number page_object_list paginator]. fold N last.
  repeat split.
  - intros s [E|E]; now rewrite E.
  - intros n E Hrange. rewrite E. unfold served_number.
    destruct (Z.leb_spec 1 n), (Z.leb_spec n (Z.of_nat last)); simpl; lia.
  - intros n E Hrange. rewrite E. unfold served_number.
    destruct (Z.leb_spec 1 n), (Z.leb_spec n (Z.of_nat last)); simpl; lia.
  - now rewrite Nat2Z.id.
  - unfold last, last_page. destruct (Nat.eqb_spec N 0); [lia|reflexivity].
  - intros E. apply Nat2Z.inj in E. rewrite E.
    now apply last_page_length.
  - unfold last, last_page. now rewrite H.
  - destruct records; [|discriminate]. now rewrite skipn_nil, firstn_nil.
  - unfold has_next. cbn [paginator number].
    now rewrite num_pages_value.
  - now apply num_pages_value.
Qed.

Lemma paginate_objects_serves_witness :
  exists pg,
    paginate_objects (Sample.request None GET [] (page_int 7))
      (Sample.some_records 25) 10 = Return pg
    /\ number pg = 3%Z
    /\ List.length (page_object_list pg) = 5.
Proof.
  destruct (@paginate_objects_serves Post
              (Sample.request None GET [] (page_int 7))
              (Sample.some_records 25) 10 ltac:(lia))
    as (pg & E & _ & _ & Hlast & _ & Hlen & _).
  exists pg. split; [exact E|]. split.
  - apply (Hlast 7%Z); [reflexivity|vm_compute; right; reflexivity].
  - apply Hlen; [vm_compute; lia|].
    apply (Hlast 7%Z); [reflexivity|vm_compute; right; reflexivity].
Defined.

(** C6, as stated, fails twice.  Page number 0 of 25 records in pages of
    10 is not clamped to page 1, the last page is served; and of no
    records there is no page [ceil(0 / K) = 0] with [K] records, the one
    page that is served is page 1 and it is empty. *)
Lemma page_zero_is_the_last_page :
  (exists pg,
     paginate_objects (Sample.request None GET [] (page_int 0))
       (Sample.some_records 25) 10 = Return pg
     /\ num_pages (paginator pg) = Return 3%Z
     /\ number pg = 3%Z
     /\ clamp 3 0 = 1%Z
     /\ number pg <> clamp 3 0)
  /\ (exists pg,
        paginate_objects
          (Sample.request None GET []
             (page_int (Z.of_nat (ceil_div 0 10)))) (@nil Post) 10
        = Return pg
        /\ 0 mod 10 = 0
        /\ number pg = 1%Z
        /\ List.length (page_object_list pg) = 0
        /\ List.length (page_object_list pg) <> 10).
Proof.
  split; eexists; repeat split; discriminate.
Qed.

(** The home view pages its listing a second time, in the [super()] call,
    and that one answers a page number out of range with the 404 page. *)
Remark home_page_out_of_range :
  get_response (Sample.project None) Sample.db Sample.now
    (Sample.request None GET [] (page_int 7)) route_index
  = (Sample.db, render "core/404.html" [] HTTPStatus_NOT_FOUND).
Proof. reflexivity. Qed.


(** * Further properties of the views *)

(** ** What a request writes *)

Lemma get_response_db project db now request route :
  fst (get_response project db now request route)
  = if fails_csrf request then db
    else fst (resolve project db now request route).
Proof.
  unfold get_response. destruct (fails_csrf request); [reflexivity|].
  destruct (resolve project db now request route) as [db' [response|[]]];
    reflexivity.
Qed.

Lemma is_author_eq author V : is_author author V = true -> author = user_pk V.
Proof. apply Nat.eqb_eq. Qed.

Lemma bound_form {I} (form_class : option I -> QueryDict -> option I)
    request (inst : option I) cleaned :
  full_clean form_class {| data := POST_or_None request; instance := inst |}
  = Some cleaned ->
  exists d, POST_or_None request = Some d.
Proof.
  unfold full_clean. simpl.
  destruct (POST_or_None request) as [d|]; [eauto|discriminate].
Qed.

Lemma resolve_writes project db now request route :
  Write project db now request route
    (fst (resolve project db now request route)).
Proof.
  destruct route; simpl resolve.
  - unfold PostListView.dispatch.
    destruct (method request); simpl; try constructor;
      destruct (PostListView.get_context_data _ _ _ _); constructor.
  - unfold category_posts.
    destruct (get_object_or_404 _ _); simpl; [|constructor].
    destruct (paginate_objects _ _ _); constructor.
  - unfold PostCreateView.dispatch, login_required.
    destruct (user request) as [V|] eqn:HV; [|constructor].
    destruct (method request) eqn:Hm; try constructor;
      (destruct (full_clean _ _); [|constructor]);
      apply write_new_post; auto.
  - unfold PostDetailView.dispatch.
    destruct (method request); simpl; try constructor;
      destruct (PostDetailView.get_object _ _ _ _); constructor.
  - unfold PostUpdateView.dispatch, login_required, DispatchMixin.dispatch.
    destruct (user request) as [V|] eqn:HV; [|constructor].
    destruct (get_object project db pk) as [object|] eqn:Hobject; simpl;
      [|constructor].
    destruct (is_author _ _) eqn:Hauthor; simpl; [|constructor].
    apply is_author_eq in Hauthor.
    unfold PostUpdateView.update. rewrite Hobject. simpl.
    destruct (method request) eqn:Hm; try constructor;
      (destruct (full_clean _ _); [|constructor]);
      eapply write_post; eauto.
  - unfold PostDeleteView.dispatch, login_required, DispatchMixin.dispatch.
    destruct (user request) as [V|] eqn:HV; [|constructor].
    destruct (get_object project db pk) as [object|] eqn:Hobject; simpl;
      [|constructor].
    destruct (is_author _ _) eqn:Hauthor; simpl; [|constructor].
    apply is_author_eq in Hauthor.
    unfold PostDeleteView.delete. rewrite Hobject. simpl.
    destruct (method request) eqn:Hm; try constructor;
      eapply write_post_gone; eauto.
  - unfold add_comment, login_required.
    destruct (user request) as [V|] eqn:HV; [|constructor].
    fold (get_object project db pk).
    destruct (get_object project db pk) as [post|] eqn:Hpost; simpl;
      [|constructor].
    destruct (full_clean _ _) as [cleaned|] eqn:Hform; [|constructor].
    destruct (bound_form _ _ _ Hform) as [d Hd].
    eapply write_new_comment; eauto.
  - unfold edit_comment, login_required.
    destruct (user request) as [V|] eqn:HV; [|constructor].
    destruct (get_object_or_404 _ _) as [instance|] eqn:Hfound; simpl;
      [|constructor].
    destruct (is_author _ _) eqn:Hauthor; simpl; [|constructor].
    apply is_author_eq in Hauthor.
    destruct (full_clean _ _) as [cleaned|] eqn:Hform; [|constructor].
    destruct (bound_form _ _ _ Hform) as [d Hd].
    eapply write_comment; eauto.
  - unfold delete_comment, login_required.
    destruct (user request) as [V|] eqn:HV; [|constructor].
    destruct (get_object_or_404 _ _) as [c|] eqn:Hfound; simpl;
      [|constructor].
    destruct (is_author _ _) eqn:Hauthor; simpl; [|constructor].
    apply is_author_eq in Hauthor.
    destruct (method request) eqn:Hm; simpl; try constructor.
    eapply write_comment_gone; eauto.
  - unfold info_profile.
    destruct (get_object_or_404 _ _); simpl; [|constructor].
    destruct (paginate_objects _ _ _); constructor.
  - unfold edit_profile.
    destruct (get_object_or_404 _ _) as [u|] eqn:Hfound; simpl;
      [|constructor].
    destruct (String.eqb_spec (username u) (request_username request))
      as [Hname|]; simpl; [|constructor].
    destruct (full_clean _ _) as [cleaned|] eqn:Hform; [|constructor].
    destruct (bound_form _ _ _ Hform) as [d Hd].
    eapply write_user; eauto.
Qed.

Lemma response_writes project db now request route :
  Write project db now request route
    (fst (get_response project db now request route)).
Proof.
  rewrite get_response_db.
  destruct (fails_csrf request); [constructor|apply resolve_writes].
Qed.

Lemma get_object_or_404_only {A} (queryset : list A) lookup a b :
  get_object_or_404 queryset lookup = Return a ->
  In b queryset -> lookup b = true -> b = a.
Proof.
  unfold get_object_or_404, get. intros H Hin Hb.
  assert (Hf : In b (filter lookup queryset)) by (apply filter_In; auto).
  destruct (filter lookup queryset) as [|x [|y rest]]; simpl in H;
    try discriminate.
  injection H as <-. destruct Hf as [->|[]]. reflexivity.
Qed.

Lemma found_post project db pk object P :
  get_object project db pk = Return object ->
  In P (posts db) -> post_pk P = post_pk object -> P = object.
Proof.
  intros Hobject Hin Hpk. unfold get_object in Hobject.
  pose proof Hobject as Hkey.
  apply get_object_or_404_found in Hkey as [_ Hkey].
  apply Nat.eqb_eq in Hkey.
  eapply get_object_or_404_only; [exact Hobject| |].
  - now apply Post_objects_In.
  - apply Nat.eqb_eq. congruence.
Qed.

Lemma found_comment db comment_id post_id instance c :
  get_object_or_404 (comments db)
    (fun c => (comment_pk c =? comment_id) && (comment_post c =? post_id))
  = Return instance ->
  In c (comments db) -> comment_pk c = comment_pk instance ->
  NoDup (map comment_pk (comments db)) -> c = instance.
Proof.
  intros Hfound Hin Hpk ND.
  apply get_object_or_404_found in Hfound as [Hin' _].
  now apply (unique_row comment_pk (comments db)).
Qed.

Lemma replace_row_kept {A} (pk : A -> nat) row table r :
  In r table -> pk r <> pk row -> In r (replace_row pk row table).
Proof.
  intros Hin Hpk. unfold replace_row. apply in_map_iff. exists r.
  split; [|exact Hin].
  destruct (Nat.eqb_spec (pk r) (pk row)); [contradiction|reflexivity].
Qed.

Lemma replace_row_keys {A} (pk : A -> nat) row table :
  map pk (replace_row pk row table) = map pk table.
Proof.
  unfold replace_row. rewrite map_map. apply map_ext. intros r.
  destruct (Nat.eqb_spec (pk r) (pk row)); congruence.
Qed.

Lemma delete_row_In {A} (pk : A -> nat) key table r :
  In r (delete_row pk key table) <-> In r table /\ pk r <> key.
Proof.
  unfold delete_row. rewrite filter_In, negb_true_iff, Nat.eqb_neq.
  reflexivity.
Qed.

Lemma fresh_pk_is_new sequence pks : ~ In (fresh_pk sequence pks) pks.
Proof.
  assert (H : forall k, In k pks -> k <= fold_right Nat.max 0 pks).
  { induction pks as [|p pks IH]; simpl; intros k Hk; [contradiction|].
    destruct Hk as [->|Hk]; [lia|]. specialize (IH k Hk). lia. }
  intros Hin. specialize (H _ Hin). unfold fresh_pk in H. lia.
Qed.

Lemma appended_keys_unique {A} (key : A -> nat) sequence l row :
  NoDup (map key l) -> key row = fresh_pk sequence (map key l) ->
  NoDup (map key (l ++ [row])).
Proof.
  intros ND Hkey. rewrite map_app. simpl.
  apply NoDup_app; trivial.
  - repeat constructor. intros [].
  - intros k Hk [<-|[]]. rewrite Hkey in Hk.
    now apply (fresh_pk_is_new sequence (map key l)).
Qed.

(** X1. A request with a safe method, which carries no form data, leaves
    the database as it was, whatever the route and the requester. *)
Theorem safe_requests_never_write project db now request route :
  safe_method (method request) = true -> POST_data request = [] ->
  fst (get_response project db now request route) = db.
Proof.
  intros Hsafe Hdata.
  assert (Hnone : POST_or_None request = None)
    by (unfold POST_or_None; now rewrite Hdata).
  pose proof (response_writes project db now request route) as W.
  destruct W as [ | ? ? _ Hm | ? ? ? ? _ _ _ Hm | ? ? ? _ _ _ Hm
                  | ? ? ? ? ? _ _ Hd | ? ? ? ? ? ? _ _ _ Hd
                  | ? ? ? ? _ _ _ Hm | ? ? ? ? _ _ Hd ];
    trivial; try congruence;
    try (destruct Hm as [Hm|Hm]); rewrite Hm in Hsafe; discriminate.
Qed.

Lemma safe_requests_never_write_witness :
  fst (get_response (Sample.project None) Sample.db Sample.now
         (Sample.request (Some Sample.alice) GET [] page_absent)
         (route_delete_comment 1 1))
  = Sample.db.
Proof.
  apply safe_requests_never_write; reflexivity.
Defined.

(** X2. An anonymous request never changes the database, on any route and
    with any method and data, as long as no user has the empty name, which
    is the name the anonymous user carries. *)
Theorem anonymous_requests_never_write project db now request route :
  user request = None ->
  (forall u, In u (users db) -> username u <> EmptyString) ->
  fst (get_response project db now request route) = db.
Proof.
  intros Hanon Hnames.
  pose proof (response_writes project db now request route) as W.
  destruct W as [ | ? ? HV _ | ? ? ? ? HV _ _ _ | ? ? ? HV _ _ _
                  | ? ? ? ? ? HV _ _ | ? ? ? ? ? ? HV _ _ _
                  | ? ? ? ? HV _ _ _ | name u ? ? Hfound Hname _ ];
    trivial; try congruence.
  apply get_object_or_404_found in Hfound as [Hin _].
  unfold request_username in Hname. rewrite Hanon in Hname.
  now destruct (Hnames u Hin).
Qed.

Lemma anonymous_requests_never_write_witness :
  fst (get_response (Sample.project None) Sample.db Sample.now
         (Sample.request None POST [("first_name", "Eve")] page_absent)
         (route_edit_profile "alice"))
  = Sample.db.
Proof.
  apply anonymous_requests_never_write; [reflexivity|].
  simpl. intros u [<-|[<-|[]]]; discriminate.
Defined.

(** X3. No route changes the category table, and the user table changes
    only on the profile-edit route of a user whose name is the name of
    the requester. *)
Theorem categories_and_users_frame project db now request route :
  categories (fst (get_response project db now request route))
  = categories db
  /\ (users (fst (get_response project db now request route)) <> users db ->
      exists u,
        In u (users db) /\ route = route_edit_profile (username u)
        /\ request_username request = username u).
Proof.
  pose proof (response_writes project db now request route) as W.
  destruct W as [ | | | | | | | name u ? ? Hfound Hname _ ];
    (split; [reflexivity|]); simpl; try contradiction.
  intros _. apply get_object_or_404_found in Hfound as [Hin Hu].
  apply String.eqb_eq in Hu. exists u. subst name. auto.
Qed.

Lemma categories_and_users_frame_witness :
  exists u,
    In u (users Sample.db)
    /\ route_edit_profile "alice" = route_edit_profile (username u)
    /\ request_username
         (Sample.request (Some Sample.alice) POST [("first_name", "Al")]
            page_absent) = username u.
Proof.
  apply (proj2 (categories_and_users_frame (Sample.project None) Sample.db
                  Sample.now
                  (Sample.request (Some Sample.alice) POST
                     [("first_name", "Al")] page_absent)
                  (route_edit_profile "alice"))).
  vm_compute. discriminate.
Defined.

(** ** Ownership *)

(** X5. On every route, a row of the post table is changed or removed only
    by a request of the post's author. *)
Theorem only_the_author_alters_a_post project db now request route P :
  In P (posts db) ->
  ~ In P (posts (fst (get_response project db now request route))) ->
  exists V, user request = Some V /\ post_author P = user_pk V.
Proof.
  intros Hin Hgone.
  pose proof (response_writes project db now request route) as W.
  destruct W as [ | | V pk object ? HV Hobject Hauthor _
                  | V pk object HV Hobject Hauthor _ | | | | ];
    simpl in Hgone; try contradiction.
  - exfalso. apply Hgone. apply in_or_app. now left.
  - exists V. split; [exact HV|].
    destruct (Nat.eq_dec (post_pk P) (post_pk object)) as [E|E].
    + now rewrite (found_post project db pk P Hobject Hin E).
    + exfalso. apply Hgone. now apply replace_row_kept.
  - exists V. split; [exact HV|].
    destruct (Nat.eq_dec (post_pk P) (post_pk object)) as [E|E].
    + now rewrite (found_post project db pk P Hobject Hin E).
    + exfalso. apply Hgone. now apply delete_row_In.
Qed.

Lemma only_the_author_alters_a_post_witness :
  exists V,
    user (Sample.request (Some Sample.alice) POST [] page_absent) = Some V
    /\ post_author Sample.draft = user_pk V.
Proof.
  apply (@only_the_author_alters_a_post (Sample.project None) Sample.db
           Sample.now (Sample.request (Some Sample.alice) POST [] page_absent)
           (route_delete_post 4) Sample.draft).
  - simpl; auto.
  - vm_compute. intuition discriminate.
Defined.

(** X6. On every route but the one that deletes a post, a row of the
    comment table is changed or removed only by a request of the
    comment's author. *)
Theorem only_the_author_alters_a_comment project db now request route c :
  NoDup (map comment_pk (comments db)) ->
  (forall pk, route <> route_delete_post pk) ->
  In c (comments db) ->
  ~ In c (comments (fst (get_response project db now request route))) ->
  exists V, user request = Some V /\ comment_author c = user_pk V.
Proof.
  intros ND Hroute Hin Hgone.
  pose proof (response_writes project db now request route) as W.
  destruct W as [ | | | V pk ? _ _ _ _ |
                  | V ? ? instance ? ? HV Hfound Hauthor _
                  | V ? ? instance HV Hfound Hauthor _ | ];
    simpl in Hgone; try contradiction.
  - now destruct (Hroute pk).
  - exfalso. apply Hgone. apply in_or_app. now left.
  - exists V. split; [exact HV|].
    destruct (Nat.eq_dec (comment_pk c) (comment_pk instance)) as [E|E].
    + now rewrite (found_comment db _ _ c Hfound Hin E ND).
    + exfalso. apply Hgone. now apply replace_row_kept.
  - exists V. split; [exact HV|].
    destruct (Nat.eq_dec (comment_pk c) (comment_pk instance)) as [E|E].
    + now rewrite (found_comment db _ _ c Hfound Hin E ND).
    + exfalso. apply Hgone. now apply delete_row_In.
Qed.

Lemma only_the_author_alters_a_comment_witness :
  exists V,
    user (Sample.request (Some Sample.alice) POST [] page_absent) = Some V
    /\ comment_author Sample.first_comment = user_pk V.
Proof.
  apply (@only_the_author_alters_a_comment (Sample.project None)
           Sample.db Sample.now
           (Sample.request (Some Sample.alice) POST [] page_absent)
           (route_delete_comment 1 1) Sample.first_comment).
  - apply sample_integrity.
  - discriminate.
  - simpl; auto.
  - vm_compute. intuition.
Defined.

(** ** Writing and reading back *)

(** X7. A valid post form sent with POST by an authenticated user appends
    one post: its author is the requester whatever the form carried, its
    key is one the table has never held (no row has it and it lies above
    the table's sequence), the response is a redirect to the requester's
    profile, and the requester's detail request for the new key finds the
    post. *)
Theorem created_post_is_the_requesters project db request V cleaned :
  NoDup (map post_pk (posts db)) ->
  user request = Some V -> method request = POST ->
  PostForm project db None (POST_data request) = Some cleaned ->
  let row :=
    with_post_key (fresh_pk (post_sequence db) (map post_pk (posts db)))
      (user_pk V) cleaned in
  PostCreateView.dispatch project db request
  = (insert_post db row,
     Return (redirect (reverse "blog:profile" [str_arg (username V)])))
  /\ post_author row = user_pk V
  /\ ~ In (post_pk row) (map post_pk (posts db))
  /\ post_sequence db < post_pk row
  /\ PostDetailView.get_object project (insert_post db row) request
       (post_pk row) = Return row.
Proof.
  intros ND HV Hm Hform row. repeat split.
  - unfold PostCreateView.dispatch, login_required, full_clean.
    rewrite HV, Hm. simpl. now rewrite Hform.
  - apply fresh_pk_is_new.
  - simpl. unfold fresh_pk. lia.
  - apply (@detail_view_get_object project (insert_post db row) request V
             (post_pk row) row); trivial.
    + simpl. now apply (@appended_keys_unique Post post_pk (post_sequence db)).
    + simpl. repeat split; auto. apply in_or_app. right. now left.
Qed.

Lemma created_post_is_the_requesters_witness :
  PostCreateView.dispatch (Sample.project None) Sample.db
    (Sample.request (Some Sample.bob) POST [("title", "new")] page_absent)
  = (insert_post Sample.db
       {| post_pk := 6; post_author := 2; post_category := 1;
          post_location := None; post_title := "new"; post_text := "text";
          pub_date := 0; is_published := true |},
     Return (redirect (reverse "blog:profile" [str_arg "bob"]))).
Proof.
  apply (@created_post_is_the_requesters (Sample.project None) Sample.db
           (Sample.request (Some Sample.bob) POST [("title", "new")]
              page_absent)
           Sample.bob
           {| post_pk := 0; post_author := 0; post_category := 1;
              post_location := None; post_title := "new";
              post_text := "text"; pub_date := 0; is_published := true |}).
  - apply sample_integrity.
  - reflexivity.
  - reflexivity.
  - reflexivity.
Defined.

(** X8. A valid comment form sent by an authenticated user for an existing
    post, visible or not, appends one comment with the requester as
    author, that post, the current time and a key the table has never held
    (no row has it and it lies above the table's sequence); the detail
    page of the post then lists the earlier comments of the post followed
    by the new one. *)
Theorem new_comment_shows_on_the_post project db now request V P cleaned :
  NoDup (map post_pk (posts db)) ->
  user request = Some V -> In P (posts db) ->
  full_clean (CommentForm project db)
    {| data := POST_or_None request; instance := None |} = Some cleaned ->
  let c :=
    with_comment_key
      (fresh_pk (comment_sequence db) (map comment_pk (comments db)))
      (user_pk V) (post_pk P) now cleaned in
  add_comment project db now request (post_pk P)
  = (insert_comment db c,
     Return (redirect (reverse "blog:post_detail" [int_arg (post_pk P)])))
  /\ ~ In (comment_pk c) (map comment_pk (comments db))
  /\ comment_sequence db < comment_pk c
  /\ PostDetailView.get_context_data (insert_comment db c) P
     = [("object", a_post P); ("post", a_post P);
        ("form", a_comment_form {| data := None; instance := None |});
        ("comments",
         some_comments
           (filter (fun c' => comment_post c' =? post_pk P) (comments db)
            ++ [c]))].
Proof.
  intros ND HV Hin Hform c. repeat split.
  - unfold add_comment, login_required. rewrite HV.
    fold (get_object project db (post_pk P)).
    rewrite (get_object_found project db P ND Hin). simpl.
    now rewrite Hform.
  - apply fresh_pk_is_new.
  - simpl. unfold fresh_pk. lia.
  - unfold PostDetailView.get_context_data. simpl comments.
    rewrite filter_app. simpl. now rewrite Nat.eqb_refl.
Qed.

Lemma new_comment_shows_on_the_post_witness :
  add_comment (Sample.project None) Sample.db Sample.now
    (Sample.request (Some Sample.bob) POST [("text", "hi")] page_absent) 1
  = (insert_comment Sample.db
       {| comment_pk := 2; comment_author := 2; comment_post := 1;
          comment_text := "hi"; created_at := 300 |},
     Return (redirect (reverse "blog:post_detail" [int_arg 1]))).
Proof.
  apply (@new_comment_shows_on_the_post (Sample.project None) Sample.db
           Sample.now
           (Sample.request (Some Sample.bob) POST [("text", "hi")] page_absent)
           Sample.bob Sample.early
           {| comment_pk := 0; comment_author := 0; comment_post := 0;
              comment_text := "hi"; created_at := 0 |}).
  - apply sample_integrity.
  - reflexivity.
  - simpl; auto.
  - reflexivity.
Defined.

(** X9. A POST request of a comment's author to the delete route removes
    that comment and no other, and redirects to the post; the same request
    sent again finds nothing to delete and raises [Http404]. *)
Theorem deleted_comment_is_gone db request V R :
  NoDup (map comment_pk (comments db)) ->
  user request = Some V -> In R (comments db) ->
  comment_author R = user_pk V -> method request = POST ->
  let db' := delete_comment_row db (comment_pk R) in
  delete_comment db request (comment_pk R) (comment_post R)
  = (db', Return (redirect (reverse "blog:post_detail"
                              [int_arg (comment_post R)])))
  /\ (forall c, In c (comments db') <-> In c (comments db) /\ c <> R)
  /\ delete_comment db' request (comment_pk R) (comment_post R)
     = (db', Raise Http404).
Proof.
  intros ND HV Hin Hauthor Hm db'. repeat split.
  - unfold delete_comment, login_required.
    rewrite HV, (comment_lookup db R ND Hin). simpl.
    unfold is_author. rewrite Hauthor, Nat.eqb_refl, Hm. reflexivity.
  - now apply delete_row_In in H.
  - apply delete_row_In in H as [_ Hpk]. congruence.
  - intros [Hc Hne]. apply delete_row_In. split; [exact Hc|].
    intros Hpk. apply Hne.
    now apply (unique_row comment_pk (comments db)).
  - unfold delete_comment, login_required. rewrite HV.
    rewrite get_object_or_404_missing; [reflexivity|].
    intros c Hc. apply delete_row_In in Hc as [_ Hpk].
    apply andb_false_iff. left. now apply Nat.eqb_neq.
Qed.

Lemma deleted_comment_is_gone_witness :
  delete_comment Sample.db
    (Sample.request (Some Sample.alice) POST [] page_absent) 1 1
  = (delete_comment_row Sample.db 1,
     Return (redirect (reverse "blog:post_detail" [int_arg 1]))).
Proof.
  apply (@deleted_comment_is_gone Sample.db
           (Sample.request (Some Sample.alice) POST [] page_absent)
           Sample.alice Sample.first_comment).
  - apply sample_integrity.
  - reflexivity.
  - simpl; auto.
  - reflexivity.
  - reflexivity.
Defined.

(** The key of a deleted comment is not handed out again: after Alice has
    deleted the one comment of the table, Bob's new comment gets key 2. *)
Remark deleted_key_is_not_handed_out_again :
  let emptied :=
    fst (delete_comment Sample.db
           (Sample.request (Some Sample.alice) POST [] page_absent) 1 1) in
  comments emptied = []
  /\ comments
       (fst (add_comment (Sample.project None) emptied Sample.now
               (Sample.request (Some Sample.bob) POST [("text", "hi")]
                  page_absent) 1))
     = [{| comment_pk := 2; comment_author := 2; comment_post := 1;
           comment_text := "hi"; created_at := 300 |}].
Proof. split; reflexivity. Qed.

(** X10. A POST or DELETE request of a post's author to the delete route
    removes that post and no other and redirects to the home page;
    afterwards the detail lookup of the key raises [Http404] for every
    authenticated requester, the author included. *)
Theorem deleted_post_is_gone project db request V R :
  NoDup (map post_pk (posts db)) ->
  user request = Some V -> In R (posts db) ->
  post_author R = user_pk V ->
  method request = POST \/ method request = DELETE ->
  let db' := delete_post db (post_pk R) in
  PostDeleteView.dispatch project db request (post_pk R)
  = (db', Return (redirect (reverse "blog:index" [])))
  /\ (forall P, In P (posts db') <-> In P (posts db) /\ P <> R)
  /\ (forall request' V',
        user request' = Some V' ->
        PostDetailView.get_object project db' request' (post_pk R)
        = Raise Http404).
Proof.
  intros ND HV Hin Hauthor Hm db'. repeat split.
  - unfold PostDeleteView.dispatch, login_required, DispatchMixin.dispatch.
    rewrite HV, (get_object_found project db R ND Hin). simpl.
    unfold is_author. rewrite Hauthor, Nat.eqb_refl. simpl.
    unfold PostDeleteView.delete.
    rewrite (get_object_found project db R ND Hin).
    destruct Hm as [-> | ->]; reflexivity.
  - now apply delete_row_In in H.
  - apply delete_row_In in H as [_ Hpk]. congruence.
  - intros [HP Hne]. apply delete_row_In. split; [exact HP|].
    intros Hpk. apply Hne. now apply (unique_row post_pk (posts db)).
  - intros request' V' HV'. unfold PostDetailView.get_object. rewrite HV'.
    apply get_object_or_404_missing. intros P HP.
    apply filter_In in HP as [HP _]. apply Post_objects_In in HP.
    apply delete_row_In in HP as [_ Hpk]. now apply Nat.eqb_neq.
Qed.

Lemma deleted_post_is_gone_witness :
  PostDeleteView.dispatch (Sample.project None) Sample.db
    (Sample.request (Some Sample.alice) POST [] page_absent) 4
  = (delete_post Sample.db 4, Return (redirect (reverse "blog:index" []))).
Proof.
  apply (@deleted_post_is_gone (Sample.project None) Sample.db
           (Sample.request (Some Sample.alice) POST [] page_absent)
           Sample.alice Sample.draft).
  - apply sample_integrity.
  - reflexivity.
  - simpl; auto.
  - reflexivity.
  - now left.
Defined.

(** X11. A valid post form sent with POST by the post's author to the edit
    route replaces that one row: the row keeps its key, the keys of the
    table and every other row stay as they were, and the response is a
    redirect to the post's detail page. *)
Theorem author_update_replaces_one_row project db request V R cleaned :
  NoDup (map post_pk (posts db)) ->
  user request = Some V -> In R (posts db) ->
  post_author R = user_pk V -> method request = POST ->
  PostForm project db (Some R) (POST_data request) = Some cleaned ->
  let row := with_post_key (post_pk R) (post_author cleaned) cleaned in
  PostUpdateView.dispatch project db request (post_pk R)
  = (save_post db row,
     Return (redirect (reverse "blog:post_detail" [int_arg (post_pk R)])))
  /\ map post_pk (posts (save_post db row)) = map post_pk (posts db)
  /\ In row (posts (save_post db row))
  /\ (forall P, In P (posts db) -> P <> R -> In P (posts (save_post db row))).
Proof.
  intros ND HV Hin Hauthor Hm Hform row. repeat split.
  - unfold PostUpdateView.dispatch, login_required, DispatchMixin.dispatch.
    rewrite HV, (get_object_found project db R ND Hin). simpl.
    unfold is_author. rewrite Hauthor, Nat.eqb_refl. simpl.
    unfold PostUpdateView.update, full_clean.
    rewrite (get_object_found project db R ND Hin), Hm. simpl.
    now rewrite Hform.
  - simpl. apply replace_row_keys.
  - simpl. unfold replace_row. apply in_map_iff. exists R.
    split; [|exact Hin]. simpl. now rewrite Nat.eqb_refl.
  - intros P HP Hne. simpl. apply replace_row_kept; [exact HP|].
    simpl. intros Hpk. apply Hne.
    now apply (unique_row post_pk (posts db)).
Qed.

Lemma author_update_replaces_one_row_witness :
  PostUpdateView.dispatch (Sample.project None) Sample.db
    (Sample.request (Some Sample.alice) POST [("title", "final")] page_absent)
    4
  = (save_post Sample.db
       {| post_pk := 4; post_author := 1; post_category := 1;
          post_location := None; post_title := "final"; post_text := "text";
          pub_date := 10; is_published := false |},
     Return (redirect (reverse "blog:post_detail" [int_arg 4]))).
Proof.
  apply (@author_update_replaces_one_row (Sample.project None) Sample.db
           (Sample.request (Some Sample.alice) POST [("title", "final")]
              page_absent)
           Sample.alice Sample.draft
           {| post_pk := 4; post_author := 1; post_category := 1;
              post_location := None; post_title := "final";
              post_text := "text"; pub_date := 10; is_published := false |}).
  - apply sample_integrity.
  - reflexivity.
  - simpl; auto.
  - reflexivity.
  - reflexivity.
  - reflexivity.
Defined.

(** ** What the pages list *)

Lemma paginate_objects_value {A} request (records : list A) K :
  0 < K ->
  paginate_objects request records K
  = Return
      {| page_object_list :=
           firstn K
             (skipn
                ((served_number (last_page (List.length records) K)
                    (GET_page request) - 1) * K) records);
         number :=
           Z.of_nat (served_number (last_page (List.length records) K)
                       (GET_page request));
         paginator := {| object_list := records; per_page := K |} |}.
Proof.
  intros HK. unfold paginate_objects. now apply get_page_value.
Qed.

Lemma In_slice {A} (x : A) n m l : In x (firstn n (skipn m l)) -> In x l.
Proof.
  intros H.
  rewrite <- (firstn_skipn m l). apply in_or_app. right.
  rewrite <- (firstn_skipn n (skipn m l)). apply in_or_app. now left.
Qed.

Lemma home_listing_visible_rows project db now P :
  In P (PublishedPostManager.get_queryset (Post_Meta_ordering project) db now)
  <-> In P (posts db) /\ publicly_visible db now P.
Proof.
  unfold PublishedPostManager.get_queryset. rewrite filter_In.
  change (PostManager.get_queryset (Post_Meta_ordering project) db)
    with (Post_objects project db).
  rewrite Post_objects_In, <- publicly_visibleb_spec.
  unfold publicly_visibleb. rewrite !andb_true_iff. tauto.
Qed.

(** X12. A category page that is served leaves the database as it was and
    pages over exactly the publicly visible posts of the category it
    shows; what the page shows is part of them. *)
Theorem category_page_lists_its_visible_posts project db now request
    category_slug db' template context status :
  category_posts project db now request category_slug
  = (db', Return (render template context status)) ->
  db' = db
  /\ exists c pg,
       context = [("category", a_category c); ("page_obj", a_page pg)]
       /\ In c (categories db) /\ slug c = category_slug
       /\ (forall P,
             In P (object_list (paginator pg))
             <-> In P (posts db) /\ publicly_visible db now P
                 /\ post_category P = category_pk c)
       /\ (forall P,
             In P (page_object_list pg) -> In P (object_list (paginator pg))).
Proof.
  unfold category_posts.
  assert (HK : 0 < default_per_page) by (unfold default_per_page; lia).
  revert HK. generalize default_per_page as K. intros K HK.
  destruct (get_object_or_404 _ _) as [c|e] eqn:Hfound; simpl;
    [|discriminate].
  apply get_object_or_404_found in Hfound as [Hin Hc].
  apply andb_true_iff in Hc as [_ Hslug]. apply String.eqb_eq in Hslug.
  rewrite paginate_objects_value by exact HK.
  unfold fetch.
  intros [= <- <- <- <-]. split; [reflexivity|].
  eexists c, _. split; [reflexivity|].
  cbn [paginator object_list page_object_list].
  split; [exact Hin|]. split; [exact Hslug|]. split.
  - intros P. rewrite filter_In, Nat.eqb_eq.
    rewrite (home_listing_visible_rows project db now P). tauto.
  - intros P HP. now apply In_slice in HP.
Qed.

Lemma category_page_lists_its_visible_posts_witness :
  exists c, In c (categories Sample.db) /\ slug c = "travel".
Proof.
  edestruct (@category_page_lists_its_visible_posts (Sample.project None)
               Sample.db Sample.now (Sample.request None GET [] page_absent)
               "travel")
    as (_ & c & pg & _ & Hc & Hs & _).
  - reflexivity.
  - exists c. split; [exact Hc|exact Hs].
Defined.

(** X13. The profile page of an existing user is served to every
    requester, the anonymous one included, never writes, and pages over
    every post of that user: whether a post is publicly visible plays no
    part. *)
Theorem profile_page_lists_every_post project db request u :
  NoDup (map username (users db)) -> In u (users db) ->
  exists pg,
    info_profile project db request (username u)
    = (db, Return (render "blog/profile.html"
                     [("profile", a_user u); ("page_obj", a_page pg)]
                     HTTPStatus_OK))
    /\ (forall P,
          In P (object_list (paginator pg))
          <-> In P (posts db) /\ post_author P = user_pk u)
    /\ (forall P,
          In P (page_object_list pg) -> In P (object_list (paginator pg))).
Proof.
  intros ND Hin. unfold info_profile.
  assert (HK : 0 < default_per_page) by (unfold default_per_page; lia).
  revert HK. generalize default_per_page as K. intros K HK.
  rewrite (user_lookup db u ND Hin). unfold fetch.
  rewrite paginate_objects_value by exact HK.
  eexists. split; [reflexivity|].
  cbn [paginator object_list page_object_list]. split.
  - intros P. rewrite filter_In, Nat.eqb_eq.
    change (PostManager.get_queryset (Post_Meta_ordering project) db)
      with (Post_objects project db).
    now rewrite Post_objects_In.
  - intros P HP. now apply In_slice in HP.
Qed.

Lemma profile_page_lists_every_post_witness :
  exists pg,
    info_profile (Sample.project None) Sample.db
      (Sample.request None GET [] page_absent) "alice"
    = (Sample.db,
       Return (render "blog/profile.html"
                 [("profile", a_user Sample.alice); ("page_obj", a_page pg)]
                 HTTPStatus_OK))
    /\ In Sample.draft (object_list (paginator pg)).
Proof.
  destruct (@profile_page_lists_every_post (Sample.project None) Sample.db
              (Sample.request None GET [] page_absent) Sample.alice)
    as (pg & E & Hall & _).
  - apply sample_integrity.
  - simpl; auto.
  - exists pg. split; [exact E|].
    apply Hall. split; [simpl; auto 6|reflexivity].
Defined.

(** X14. The detail lookup for an authenticated requester: a post whose
    published flag is set, or whose author is the requester, is found by
    its key; a key in the range of the key column whose post has the flag
    off and another author, or that no post has, raises [Http404]. *)
Theorem detail_lookup_by_flag_or_author project db request V :
  NoDup (map post_pk (posts db)) -> user request = Some V ->
  (forall P,
     In P (posts db) ->
     is_published P = true \/ post_author P = user_pk V ->
     PostDetailView.get_object project db request (post_pk P) = Return P)
  /\ (forall pk,
        (Z.of_nat pk <= max_key)%Z ->
        (forall P,
           In P (posts db) -> post_pk P = pk ->
           is_published P = false /\ post_author P <> user_pk V) ->
        PostDetailView.get_object project db request pk = Raise Http404).
Proof.
  intros ND HV. split.
  - intros P Hin Hseen.
    now apply (@detail_view_get_object project db request V (post_pk P) P).
  - intros pk _ Hhidden. unfold PostDetailView.get_object. rewrite HV.
    apply get_object_or_404_missing. intros P HP.
    apply filter_In in HP as [HP Hseen]. apply Post_objects_In in HP.
    destruct (Nat.eqb_spec (post_pk P) pk) as [Hpk|]; [|reflexivity].
    destruct (Hhidden P HP Hpk) as [Hflag Hother].
    rewrite Hflag, (not_author _ Hother) in Hseen. discriminate.
Qed.

Lemma detail_lookup_by_flag_or_author_witness :
  PostDetailView.get_object (Sample.project None) Sample.db
    (Sample.request (Some Sample.alice) GET [] page_absent) 4
  = Return Sample.draft.
Proof.
  apply (proj1 (@detail_lookup_by_flag_or_author (Sample.project None)
                  Sample.db
                  (Sample.request (Some Sample.alice) GET [] page_absent)
                  Sample.alice (unique_post_pk sample_integrity) eq_refl)
           Sample.draft).
  - simpl; auto 6.
  - now right.
Defined.

(** ** Pages *)

Lemma firstn_plus {A} a b (l : list A) :
  firstn (a + b) l = firstn a l ++ firstn b (skipn a l).
Proof.
  revert l. induction a as [|a IH]; intros l; [reflexivity|].
  destruct l as [|x l]; simpl.
  - now rewrite firstn_nil.
  - now rewrite IH.
Qed.

Lemma concat_slices {A} K (l : list A) j :
  List.concat (map (fun m => firstn K (skipn (m * K) l)) (seq 0 j))
  = firstn (j * K) l.
Proof.
  induction j as [|j IH]; [reflexivity|].
  rewrite seq_S, map_app, concat_app, IH. simpl.
  rewrite app_nil_r, (Nat.add_comm K). symmetry. apply firstn_plus.
Qed.

Lemma last_page_reaches_the_end N K : 0 < K -> N <= last_page N K * K.
Proof.
  intros HK. unfold last_page.
  destruct (Nat.eqb_spec N 0) as [->|HN]; [lia|].
  rewrite ceil_div_spec by trivial.
  pose proof (Nat.div_mod_eq N K) as E.
  pose proof (Nat.mod_upper_bound N K ltac:(lia)) as Hr.
  destruct (Nat.eqb_spec (N mod K) 0); nia.
Qed.

Lemma page_records_value {A} request (records : list A) K n :
  0 < K -> 1 <= n <= last_page (List.length records) K ->
  page_records request records K n
  = firstn K (skipn ((n - 1) * K) records).
Proof.
  intros HK Hn. unfold page_records.
  rewrite paginate_objects_value by exact HK.
  cbn [page_object_list asking_for GET_page served_number].
  destruct (Z.leb_spec 1 (Z.of_nat n)); [|lia].
  destruct (Z.leb_spec (Z.of_nat n)
              (Z.of_nat (last_page (List.length records) K))); [|lia].
  cbn [andb]. now rewrite Nat2Z.id.
Qed.

(** X15. The pages the pagination helper serves for the page numbers 1 to
    the last, put one after the other, are the list it was given: no
    record is left out, repeated or moved; and no page, whatever number is
    asked for, holds more than the page size. *)
Theorem pages_partition_the_list {A} request (records : list A) K :
  0 < K ->
  List.concat (map (page_records request records K)
            (seq 1 (last_page (List.length records) K)))
  = records
  /\ forall n, List.length (page_records request records K n) <= K.
Proof.
  intros HK. split.
  - rewrite <- seq_shift, map_map.
    rewrite (map_ext_in _ (fun m => firstn K (skipn (m * K) records))).
    + rewrite concat_slices. apply firstn_all2.
      now apply last_page_reaches_the_end.
    + intros m Hm. apply in_seq in Hm.
      rewrite page_records_value by lia.
      now rewrite Nat.sub_succ, Nat.sub_0_r.
  - intros n. unfold page_records.
    rewrite paginate_objects_value by exact HK.
    cbn [page_object_list]. rewrite length_firstn. lia.
Qed.

Lemma pages_partition_the_list_witness :
  List.concat (map (page_records (Sample.request None GET [] page_absent)
                 (Sample.some_records 25) 10)
            (seq 1 (last_page (List.length (Sample.some_records 25)) 10)))
  = Sample.some_records 25.
Proof.
  apply (@pages_partition_the_list Post
           (Sample.request None GET [] page_absent)
           (Sample.some_records 25) 10).
  lia.
Defined.

Lemma page_out_of_range {A} (records : list A) K n :
  0 < K ->
  (n < 1 \/ Z.of_nat (last_page (List.length records) K) < n)%Z ->
  page {| object_list := records; per_page := K |} (page_int n)
  = Raise EmptyPage.
Proof.
  intros HK Hout. unfold page, validate_number.
  destruct (Z.ltb_spec n 1) as [|Hlow]; [reflexivity|].
  rewrite num_pages_value by exact HK. cbn [bind].
  pose proof (last_page_positive (List.length records) HK) as Hlast.
  destruct (Z.ltb_spec (Z.of_nat (last_page (List.length records) K)) n);
    [|lia].
  destruct (Z.eqb_spec n 1); [lia|]. reflexivity.
Qed.

Lemma page_of_number {A} (records : list A) K n :
  0 < K ->
  (1 <= n <= Z.of_nat (last_page (List.length records) K))%Z ->
  page {| object_list := records; per_page := K |} (page_int n)
  = Return {| page_object_list :=
                firstn K (skipn ((Z.to_nat n - 1) * K) records);
              number := n;
              paginator := {| object_list := records; per_page := K |} |}.
Proof.
  intros HK Hn.
  assert (E : n = Z.of_nat (S (Z.to_nat n - 1))) by lia.
  rewrite E at 1 3. rewrite page_in_range by (trivial; lia).
  reflexivity.
Qed.

(** X16. The home view with a positive page size, asked with GET or HEAD
    for a page by its number: a number below 1 or beyond the last page
    raises [Http404]; a number in range renders the home template with
    that page of the listing as [page_obj] and its posts as
    [object_list].  The database stays as it was in both cases. *)
Theorem home_view_serves_pages_in_range project db now request n :
  0 < BLOG_PAGINATE_BY project ->
  method request = GET \/ method request = HEAD ->
  GET_page request = page_int n ->
  let listing := PostListView.get_queryset project db now in
  let K := BLOG_PAGINATE_BY project in
  let last := Z.of_nat (last_page (List.length listing) K) in
  let pg :=
    {| page_object_list := firstn K (skipn ((Z.to_nat n - 1) * K) listing);
       number := n;
       paginator := {| object_list := listing; per_page := K |} |} in
  ((n < 1 \/ last < n)%Z ->
   PostListView.dispatch project db now request = (db, Raise Http404))
  /\ ((1 <= n <= last)%Z ->
      exists context,
        PostListView.dispatch project db now request
        = (db, Return (render "blog/index.html" context HTTPStatus_OK))
        /\ In ("page_obj", a_page pg) context
        /\ In ("object_list", some_posts (page_object_list pg)) context).
Proof.
  intros HK Hm Hpage listing K last pg.
  assert (Hdispatch :
            PostListView.dispatch project db now request
            = fetch db (PostListView.get_context_data project db now request)
                (fun context =>
                   (db, Return (render PostListView.template_name context
                                  HTTPStatus_OK)))).
  { unfold PostListView.dispatch. destruct Hm as [-> | ->]; reflexivity. }
  rewrite Hdispatch.
  unfold PostListView.get_context_data, PostListView.super_get_context_data,
    PostListView.paginate_by, PostListView.paginate_queryset.
  fold listing. fold K. rewrite nonzero_branch by exact HK.
  rewrite Hpage. cbn [bind]. split.
  - intros Hout.
    rewrite (@page_out_of_range Post listing K n HK Hout). reflexivity.
  - intros Hin.
    rewrite (@page_of_number Post listing K n HK Hin). fold pg.
    unfold has_other_pages, has_next.
    change (paginator pg) with {| object_list := listing; per_page := K |}.
    change (number pg) with n.
    rewrite num_pages_value by exact HK. cbn [bind].
    unfold get_page, validate_number.
    rewrite num_pages_value by exact HK. cbn [bind].
    destruct (Z.ltb_spec n 1); [lia|].
    destruct (Z.ltb_spec (Z.of_nat (last_page (List.length listing) K)) n);
      [unfold last in Hin; lia|].
    cbn [bind]. rewrite (@page_of_number Post listing K n HK Hin). fold pg.
    cbn [bind fetch]. eexists. split; [reflexivity|].
    cbn [set_item]. simpl String.eqb. cbn [page_object_list pg].
    split; simpl; auto 6.
Qed.

Lemma home_view_serves_pages_in_range_witness :
  PostListView.dispatch (Sample.project None) Sample.db Sample.now
    (Sample.request None GET [] (page_int 7))
  = (Sample.db, Raise Http404).
Proof.
  apply (proj1 (@home_view_serves_pages_in_range (Sample.project None)
                  Sample.db Sample.now
                  (Sample.request None GET [] (page_int 7)) 7
                  ltac:(simpl; lia) (or_introl eq_refl) eq_refl)).
  right. reflexivity.
Defined.

(** ** The login requirement and the profile *)

(** X17. On the routes that require login an anonymous request is
    redirected to the login page and nothing is written, whatever its
    method and data and whether or not the record it names exists. *)
Theorem anonymous_is_sent_to_login project db now request route :
  user request = None -> requires_login route = true ->
  resolve project db now request route = (db, Return (redirect LOGIN_URL)).
Proof.
  intros Hanon Hroute.
  destruct route; try discriminate; simpl;
    unfold PostCreateView.dispatch, PostUpdateView.dispatch,
      PostDeleteView.dispatch, add_comment, edit_comment, delete_comment,
      login_required;
    now rewrite Hanon.
Qed.

Lemma anonymous_is_sent_to_login_witness :
  resolve (Sample.project None) Sample.db Sample.now
    (Sample.request None POST [("title", "x")] page_absent) (route_edit_post 99)
  = (Sample.db, Return (redirect LOGIN_URL)).
Proof.
  apply anonymous_is_sent_to_login; reflexivity.
Defined.

(** X18. A valid profile form sent by the user the profile belongs to is
    saved into that user's row, which keeps its key, and the response is
    the profile form rendered again, not a redirect: the form that is
    rendered holds the submitted data and, as its instance, the row as it
    was saved.  The keys of the user table stay as they were. *)
Theorem own_profile_edit_is_saved project db request V R cleaned :
  NoDup (map username (users db)) ->
  user request = Some V -> In R (users db) -> username R = username V ->
  full_clean (ProfileForm project db)
    {| data := POST_or_None request; instance := Some R |} = Some cleaned ->
  let row := with_user_pk (user_pk R) cleaned in
  edit_profile project db request (username R)
  = (save_user db row,
     Return (render "blog/user.html"
               [("form",
                 a_profile_form {| data := POST_or_None request;
                                   instance := Some row |})]
               HTTPStatus_OK))
  /\ In row (users (save_user db row))
  /\ map user_pk (users (save_user db row)) = map user_pk (users db).
Proof.
  intros ND HV Hin Hname Hform row. repeat split.
  - unfold edit_profile, request_username.
    rewrite HV, (user_lookup db R ND Hin). simpl.
    rewrite Hname, String.eqb_refl. simpl. now rewrite Hform.
  - simpl. unfold replace_row. apply in_map_iff. exists R.
    split; [|exact Hin]. simpl. now rewrite Nat.eqb_refl.
  - simpl. apply replace_row_keys.
Qed.

Lemma own_profile_edit_is_saved_witness :
  edit_profile (Sample.project None) Sample.db
    (Sample.request (Some Sample.alice) POST [("first_name", "Al")]
       page_absent) "alice"
  = (save_user Sample.db
       {| user_pk := 1; username := "alice"; first_name := "Al";
          last_name := "A"; email := "alice@example.org" |},
     Return (render "blog/user.html"
               [("form",
                 a_profile_form
                   {| data := Some [("first_name", "Al")];
                      instance :=
                        Some {| user_pk := 1; username := "alice";
                                first_name := "Al"; last_name := "A";
                                email := "alice@example.org" |} |})]
               HTTPStatus_OK)).
Proof.
  apply (@own_profile_edit_is_saved (Sample.project None) Sample.db
           (Sample.request (Some Sample.alice) POST [("first_name", "Al")]
              page_absent)
           Sample.alice Sample.alice
           {| user_pk := 1; username := "alice"; first_name := "Al";
              last_name := "A"; email := "alice@example.org" |}).
  - apply sample_integrity.
  - reflexivity.
  - simpl; auto.
  - reflexivity.
  - reflexivity.
Defined.
